(** * fastapi-crud: the authentication core of [app/auth.py]

    A shallow embedding of the JWT and password functions of
    [app/auth.py], of the account and item endpoints of [app/main.py] and
    of the item service of [main.py], together with models of the three
    libraries they call (python-jose, passlib and the SQLAlchemy query
    used for the account lookup).

    Conventions.
    - A Python [str] is a [string]; where a library works on the UTF-8
      bytes of a [str] the string stands for those bytes.
    - A [datetime] is the number of microseconds since the epoch (naive
      UTC, as [datetime.utcnow()] returns it); a [timedelta] is a number of
      microseconds.  Both are [Z].
    - A Python call that may raise returns a [result]; [utcnow()] is an
      explicit argument [now] of the function that reads the clock.
    - A [dict] that the code copies or mutates lives in a [heap] of dict
      objects and is passed by reference ([loc]). *)

From Stdlib Require Import ZArith String Ascii List Bool Lia.
From stdpp Require Import gmap strings pretty list fin_maps.

Local Open Scope string_scope.
Local Open Scope Z_scope.

(** ** Python exceptions and the result of a call *)

(** The exception classes that occur in the modelled code.  In python-jose
    [ExpiredSignatureError] and [JWTClaimsError] are subclasses of
    [JWTError]; [JWSError] is not.  [HTTPException] is FastAPI's. *)
Inductive exn :=
| AttributeError
| TypeError
| ValueError
| OverflowError
| JWSError
| JWTError
| ExpiredSignatureError
| JWTClaimsError
| HTTPException (status_code : Z) (detail : string)
                (headers : list (string * string)).

(** [isinstance(e, JWTError)]. *)
Definition isinstance_JWTError (e : exn) : bool :=
  match e with
  | JWTError | ExpiredSignatureError | JWTClaimsError => true
  | _ => false
  end.

(** [isinstance(e, ValueError)]. *)
Definition isinstance_ValueError (e : exn) : bool :=
  match e with
  | ValueError => true
  | _ => false
  end.

Inductive result (A : Type) :=
| Ret (a : A)
| Raise (e : exn).
Arguments Ret {A} a.
Arguments Raise {A} e.

#[global] Instance result_ret : MRet result := @Ret.
#[global] Instance result_bind : MBind result :=
  fun A B f m => match m with Ret a => f a | Raise e => Raise e end.
#[global] Instance result_fmap : FMap result :=
  fun A B f m => match m with Ret a => Ret (f a) | Raise e => Raise e end.

(** [try: body  except <class>: handler] for a class test [catches]. *)
Definition try_except {A} (body : result A) (catches : exn -> bool)
    (handler : result A) : result A :=
  match body with
  | Ret a => Ret a
  | Raise e => if catches e then handler else Raise e
  end.

(** ** Values, dicts and the heap of dict objects *)

(** A float as the JSON decoder produced it: [mantissa * 2 ^ exponent],
    or one of [Infinity], [-Infinity] and [NaN], which Python's decoder
    accepts. *)
Inductive jfloat :=
| Finite (mantissa exponent : Z)
| Infinite (negative : bool)
| NaN.

(** A decoded JSON value.  An array or an object is kept as its JSON
    text: the modelled code looks at no element of one. *)
Inductive jval :=
| JStr (s : string)
| JInt (z : Z)
| JBool (b : bool)
| JNull
| JFloat (x : jfloat)
| JCompound (text : string).

(** A value stored in a Python dict of claims before serialisation: a
    JSON value or a [datetime]. *)
Inductive pyval :=
| PJson (j : jval)
| PDatetime (dt : Z).

#[global] Instance jfloat_eq_dec : EqDecision jfloat.
Proof. solve_decision. Defined.
#[global] Instance jval_eq_dec : EqDecision jval.
Proof. solve_decision. Defined.
#[global] Instance pyval_eq_dec : EqDecision pyval.
Proof. solve_decision. Defined.

Abbreviation loc := positive.
Abbreviation heap := (gmap positive (gmap string pyval)).

(** ** datetime *)

Definition MICROSECONDS : Z := 1000000.

(** [timedelta(minutes=m)]. *)
Definition timedelta_minutes (m : Z) : Z := m * 60 * MICROSECONDS.

(** [bool(delta)]: a timedelta is true iff it is not [timedelta(0)]. *)
Definition timedelta_bool (delta : Z) : bool := negb (delta =? 0).

(** [calendar.timegm(dt.utctimetuple())]: whole seconds since the epoch,
    the microseconds dropped. *)
Definition timegm (dt : Z) : Z := dt `div` MICROSECONDS.

(** [datetime.min] and [datetime.max], 0001-01-01 00:00:00 and
    9999-12-31 23:59:59.999999, in microseconds since the epoch. *)
Definition DATETIME_MIN : Z := -62135596800000000.
Definition DATETIME_MAX : Z := 253402300799999999.

(** The instant is a [datetime].  The sum of a [datetime] and a
    [timedelta] raises [OverflowError] when it is none. *)
Definition datetime_ok (dt : Z) : bool :=
  (DATETIME_MIN <=? dt) && (dt <=? DATETIME_MAX).

(** ** python-jose: [jose.jws] and [jose.jwt]

    The model follows the documented interface of the library.  What the
    library computes with cryptography or by serialisation is a parameter:
    the MAC of each supported algorithm, the compact serialisation
    [base64url(header) . base64url(payload) . base64url(signature)] and its
    parser, and Python's [int()] on a [str]. *)

(** The JOSE header; [alg] is [header.get("alg")]. *)
Record jws_header := { alg : option string }.

Class JoseBackend := {
  (** the keyed MAC of an algorithm name; [None] when the name is not in
      [ALGORITHMS.SUPPORTED] *)
  jws_mac : string -> option (string -> string -> string);
  (** [base64url(json(header)) + "." + base64url(json(payload))] *)
  jws_signing_input : jws_header -> gmap string jval -> string;
  (** [signing_input + "." + base64url(signature)] *)
  jws_compact : string -> string -> string;
  (** [jws._load]: header, payload, signing input and signature of a
      token, [None] when the token does not have that structure; the
      payload is [None] when it is not a JSON object *)
  jws_load : string ->
    option (jws_header * option (gmap string jval) * string * string);
  (** [int(s)] for a [str]; [None] when the text is no integer literal
      and [int] raises [ValueError] *)
  int_of_str : string -> option Z;
  jws_mac_HS256 : is_Some (jws_mac "HS256");
  jws_load_compact : forall hd p sig,
    jws_load (jws_compact (jws_signing_input hd p) sig)
    = Some (hd, Some p, jws_signing_input hd p, sig)
}.

Section Jose.
Context {JB : JoseBackend}.

(** [json.dumps] accepts the JSON values and raises [TypeError] on a
    [datetime]. *)
Definition json_of (v : pyval) : option jval :=
  match v with
  | PJson j => Some j
  | PDatetime _ => None
  end.

Definition json_dumps (claims : gmap string pyval)
    : result (gmap string jval) :=
  if bool_decide (map_Forall (fun _ v => is_Some (json_of v)) claims)
  then Ret (omap json_of claims)
  else Raise TypeError.

(** [jws.sign(payload, key, headers, algorithm)]. *)
Definition jws_sign (claims : gmap string pyval) (key algorithm : string)
    : result string :=
  match jws_mac algorithm with
  | None => Raise JWSError
  | Some mac =>
      payload ← json_dumps claims;
      let signing_input :=
        jws_signing_input {| alg := Some algorithm |} payload in
      Ret (jws_compact signing_input (mac key signing_input))
  end.

(** The loop of [jwt.encode] over ["exp"], ["iat"], ["nbf"]: a [datetime]
    under one of these keys is replaced, in the dict itself, by its
    [timegm]. *)
Definition time_claims : list string := ["exp"; "iat"; "nbf"].

Definition convert_time_claim (claims : gmap string pyval) (k : string)
    : gmap string pyval :=
  match claims !! k with
  | Some (PDatetime dt) => <[k := PJson (JInt (timegm dt))]> claims
  | _ => claims
  end.

(** [jwt.encode(claims, key, algorithm)] on the dict object at [claims].
    The heap is returned in every case: the conversion of the time claims
    has happened by the time signing can raise. *)
Definition jwt_encode (h : heap) (claims : loc) (key algorithm : string)
    : result string * heap :=
  match h !! claims with
  | None => (Raise JWTError, h)
  | Some c =>
      let c' := foldl convert_time_claim c time_claims in
      (jws_sign c' key algorithm, <[claims := c']> h)
  end.

(** [jws.verify(token, key, algorithms)]: structure, algorithm, then
    signature (compared with [hmac.compare_digest]). *)
Definition jws_verify (token key : string) (algorithms : list string)
    : result (option (gmap string jval)) :=
  match jws_load token with
  | None => Raise JWSError
  | Some (hd, payload, signing_input, signature) =>
      match alg hd with
      | None => Raise JWSError
      | Some a =>
          if String.eqb a "" then Raise JWSError
          else if negb (bool_decide (a ∈ algorithms)) then Raise JWSError
          else match jws_mac a with
               | None => Raise JWSError
               | Some mac =>
                   if String.eqb (mac key signing_input) signature
                   then Ret payload
                   else Raise JWSError
               end
      end
  end.

(** [int(x)] for a finite float: the value truncated towards zero. *)
Definition float_trunc (mantissa exponent : Z) : Z :=
  if 0 <=? exponent then mantissa * 2 ^ exponent
  else mantissa `quot` 2 ^ (- exponent).

(** [int(v)] for a decoded JSON value: the number itself, 0 or 1 for a
    boolean, the literal a [str] spells or [ValueError], the truncation of
    a finite float, [OverflowError] for an infinite one and [ValueError]
    for [NaN], and [TypeError] for [None], for a list and for a dict. *)
Definition py_int (v : jval) : result Z :=
  match v with
  | JInt z => Ret z
  | JBool b => Ret (if b then 1 else 0)
  | JStr s => if int_of_str s is Some z then Ret z else Raise ValueError
  | JNull => Raise TypeError
  | JFloat (Finite m e) => Ret (float_trunc m e)
  | JFloat (Infinite _) => Raise OverflowError
  | JFloat NaN => Raise ValueError
  | JCompound _ => Raise TypeError
  end.

(** The values on which [int] raises an exception that is no
    [ValueError], and the exception. *)
Definition int_uncaught (v : jval) : option exn :=
  match v with
  | JNull | JCompound _ => Some TypeError
  | JFloat (Infinite _) => Some OverflowError
  | _ => None
  end.

(** [try: int(claims[k])  except ValueError: raise JWTClaimsError(...)],
    as the validators of ["iat"], ["nbf"] and ["exp"] have it.  Only
    [ValueError] is caught: the [TypeError] of [int(None)] and the
    [OverflowError] of [int(float("inf"))] pass. *)
Definition claim_int (v : jval) : result Z :=
  try_except (py_int v) isinstance_ValueError (Raise JWTClaimsError).

(** The validators of [jwt._validate_claims] with the default options and
    no [audience], [issuer], [subject] or [access_token] (so [iss] is not
    checked); [now_s] is [timegm(datetime.utcnow().utctimetuple())]. *)
Definition validate_iat (claims : gmap string jval) : result unit :=
  match claims !! "iat" with
  | None => Ret tt
  | Some v => _ ← claim_int v; Ret tt
  end.

Definition validate_nbf (claims : gmap string jval) (now_s : Z)
    : result unit :=
  match claims !! "nbf" with
  | None => Ret tt
  | Some v =>
      nbf ← claim_int v;
      if now_s <? nbf then Raise JWTClaimsError else Ret tt
  end.

Definition validate_exp (claims : gmap string jval) (now_s : Z)
    : result unit :=
  match claims !! "exp" with
  | None => Ret tt
  | Some v =>
      exp ← claim_int v;
      if exp <? now_s then Raise ExpiredSignatureError else Ret tt
  end.

Definition validate_aud (claims : gmap string jval) : result unit :=
  match claims !! "aud" with
  | None => Ret tt
  | Some _ => Raise JWTClaimsError
  end.

Definition validate_string_claim (k : string) (claims : gmap string jval)
    : result unit :=
  match claims !! k with
  | None | Some (JStr _) => Ret tt
  | Some _ => Raise JWTClaimsError
  end.

Definition validate_at_hash (claims : gmap string jval) : result unit :=
  match claims !! "at_hash" with
  | None => Ret tt
  | Some _ => Raise JWTClaimsError
  end.

Definition validate_claims (claims : gmap string jval) (now : Z)
    : result unit :=
  _ ← validate_iat claims;
  _ ← validate_nbf claims (timegm now);
  _ ← validate_exp claims (timegm now);
  _ ← validate_aud claims;
  _ ← validate_string_claim "sub" claims;
  _ ← validate_string_claim "jti" claims;
  validate_at_hash claims.

(** The registered claims other than ["exp"] pass the validation that
    [jwt.decode] applies at clock reading [now]: no ["aud"] and no
    ["at_hash"], ["sub"] and ["jti"] strings, ["iat"] a value that [int]
    converts, ["nbf"] one that it converts to a second that is not in the
    future. *)
Definition registered_claims_ok (c : gmap string jval) (now : Z) : Prop :=
  validate_iat c = Ret tt /\
  validate_nbf c (timegm now) = Ret tt /\
  validate_aud c = Ret tt /\
  validate_string_claim "sub" c = Ret tt /\
  validate_string_claim "jti" c = Ret tt /\
  validate_at_hash c = Ret tt.


(** [int] raises nothing but [ValueError] on the claim under [k], if
    there is one. *)
Definition claim_converts (c : gmap string jval) (k : string) : Prop :=
  forall v, c !! k = Some v -> int_uncaught v = None.

Definition isinstance_JWSError (e : exn) : bool :=
  match e with JWSError => true | _ => false end.

(** [jwt.decode(token, key, algorithms=[...])] at clock reading [now]. *)
Definition jwt_decode (token key : string) (algorithms : list string)
    (now : Z) : result (gmap string jval) :=
  payload ← try_except (jws_verify token key algorithms)
                        isinstance_JWSError (Raise JWTError);
  claims ← (if payload is Some c then Ret c else Raise JWTError);
  _ ← validate_claims claims now;
  Ret claims.

End Jose.

(** ** passlib: [CryptContext(schemes=["bcrypt"], deprecated="auto")]

    The bcrypt primitive and the modular-crypt string format are
    parameters.  A [salt] here is the whole setting of a hash: ident, cost
    and the 22 random characters. *)

Class PasslibBackend := {
  (** the 31-character checksum of a secret under a setting *)
  bcrypt_checksum : string -> string -> string;
  (** the hash string of a setting and a checksum *)
  bcrypt_to_string : string -> string -> string;
  (** identify and parse a hash string; [None] when it is no bcrypt hash *)
  bcrypt_from_string : string -> option (string * string);
  bcrypt_from_to_string : forall salt chk,
    bcrypt_from_string (bcrypt_to_string salt chk) = Some (salt, chk)
}.

Section Passlib.
Context {PB : PasslibBackend}.

Definition MAX_PASSWORD_SIZE : nat := 4096.

(** The secret contains a NUL byte. *)
Definition has_nul (secret : string) : bool :=
  existsb (Ascii.eqb Ascii.zero) (list_ascii_of_string secret).

(** passlib rejects (with a subclass of [ValueError]) a secret longer than
    [MAX_PASSWORD_SIZE] or, for bcrypt, one that contains NUL. *)
Definition secret_ok (secret : string) : bool :=
  (String.length secret <=? MAX_PASSWORD_SIZE)%nat && negb (has_nul secret).

(** bcrypt reads the first 72 bytes of the secret only. *)
Definition bcrypt_truncate (secret : string) : string :=
  substring 0 72 secret.

(** [pwd_context.hash(secret)], with the setting it draws made explicit. *)
Definition pwd_context_hash (salt secret : string) : result string :=
  if secret_ok secret
  then Ret (bcrypt_to_string salt
              (bcrypt_checksum salt (bcrypt_truncate secret)))
  else Raise ValueError.

(** [pwd_context.verify(secret, hash)]: [ValueError] when the hash is not
    identified or the secret is rejected. *)
Definition pwd_context_verify (secret hash : string) : result bool :=
  match bcrypt_from_string hash with
  | None => Raise ValueError
  | Some (salt, chk) =>
      if secret_ok secret
      then Ret (String.eqb (bcrypt_checksum salt (bcrypt_truncate secret))
                           chk)
      else Raise ValueError
  end.

End Passlib.

(** ** [app/models.py] and the account lookup *)

Module UserModel.
Record t := {
  id : Z;
  name : string;
  email : string;
  hashed_password : string;
  age : Z;
  is_active : bool;
  created_at : option Z;
  updated_at : option Z
}.
End UserModel.

(** A [Session] gives the rows of the [users] table in the order the
    query returns them. *)
Abbreviation Session := (list UserModel.t).

(** [db.query(UserModel).filter(UserModel.email == v).first()]: the first
    row whose email column equals the bound value; a column of strings
    equals no value that is not a string. *)
Definition query_filter_email_first (db : Session) (v : jval)
    : option UserModel.t :=
  List.find (fun u => bool_decide (JStr (UserModel.email u) = v)) db.

(** ** [app/auth.py] *)

Definition SECRET_KEY : string :=
  "tu-clave-super-secreta-cambiar-en-produccion-123456789".
Definition ALGORITHM : string := "HS256".
Definition ACCESS_TOKEN_EXPIRE_MINUTES : Z := 30.

Section Password.
Context {PB : PasslibBackend}.

Definition verify_password (plain_password hashed_password : string)
    : result bool :=
  pwd_context_verify plain_password hashed_password.

Definition get_password_hash (salt password : string) : result string :=
  pwd_context_hash salt password.

Definition authenticate_user (db : Session) (email password : string)
    : result (option UserModel.t) :=
  match query_filter_email_first db (JStr email) with
  | None => Ret None
  | Some user =>
      ok ← verify_password password (UserModel.hashed_password user);
      if negb ok then Ret None else Ret (Some user)
  end.

End Password.

Definition get_user_by_email (db : Session) (email : jval)
    : option UserModel.t :=
  query_filter_email_first db email.

Section Token.
Context {JB : JoseBackend}.

(** The instant that [create_access_token] computes for its local
    [expire]: [if expires_delta:] is false for [None] and for
    [timedelta(0)].  The addition itself raises when this instant is no
    [datetime]; [create_access_token] has that case. *)
Definition expire_of (expires_delta : option Z) (now : Z) : Z :=
  match expires_delta with
  | Some delta =>
      if timedelta_bool delta then now + delta
      else now + timedelta_minutes 15
  | None => now + timedelta_minutes 15
  end.

(** [create_access_token(data, expires_delta)] on the dict object at
    [data], the clock reading [now].  [datetime.utcnow() + delta] raises
    [OverflowError] when the sum is before year 1 or after year 9999; the
    copy of [data] has been made by then. *)
Definition create_access_token (h : heap) (data : loc)
    (expires_delta : option Z) (now : Z) : result string * heap :=
  match h !! data with
  | None => (Raise AttributeError, h)
  | Some d =>
      (* to_encode = data.copy() *)
      let to_encode : loc := fresh (dom h) in
      let h := <[to_encode := d]> h in
      let expire := expire_of expires_delta now in
      (* the sum is no datetime: the addition raises *)
      if negb (datetime_ok expire) then (Raise OverflowError, h)
      else
        (* to_encode.update({"exp": expire}) *)
        let h := alter (insert "exp" (PDatetime expire)) to_encode h in
        jwt_encode h to_encode SECRET_KEY ALGORITHM
  end.

Definition verify_token (token : string) (now : Z)
    : result (option (gmap string jval)) :=
  try_except
    (payload ← jwt_decode token SECRET_KEY [ALGORITHM] now;
     Ret (Some payload))
    isinstance_JWTError
    (Ret None).

Definition credentials_exception : exn :=
  HTTPException 401 "No se pudieron validar las credenciales"
                [("WWW-Authenticate", "Bearer")].

(** [get_current_user(token, db)]; [payload.get("sub")] is Python's [None]
    when the key is missing and when its value is JSON [null]. *)
Definition get_current_user (token : string) (db : Session) (now : Z)
    : result UserModel.t :=
  payload ← verify_token token now;
  match payload with
  | None => Raise credentials_exception
  | Some payload =>
      match payload !! "sub" with
      | None | Some JNull => Raise credentials_exception
      | Some email =>
          match get_user_by_email db email with
          | None => Raise credentials_exception
          | Some user => Ret user
          end
      end
  end.

Definition get_current_active_user (current_user : UserModel.t)
    : result UserModel.t :=
  if negb (UserModel.is_active current_user)
  then Raise (HTTPException 400 "Usuario inactivo" [])
  else Ret current_user.

End Token.

(** ** [app/main.py]: the login endpoint *)

Record Token := { access_token : string; token_type : string }.

Section Login.
Context {JB : JoseBackend} {PB : PasslibBackend}.

(** The [db] of an endpoint of [app/main.py] is what [Depends(get_db)]
    yields: with [app/database.py] an [AsyncSession].  The functions of
    [app/auth.py] are written for a synchronous [Session]; their first
    statement is [db.query(...)], and an [AsyncSession] has no attribute
    [query]. *)
Inductive db_handle :=
| SyncSession (rows : Session)
| AsyncSession (rows : Session).

(** [db.query]. *)
Definition db_query (db : db_handle) : result Session :=
  match db with
  | SyncSession rows => Ret rows
  | AsyncSession _ => Raise AttributeError
  end.

(** [await v] for a value that is no awaitable, here the row or the
    [None] that the plain function [authenticate_user] returns: Python
    raises [TypeError]. *)
Definition await_value {A} (v : A) : result A := Raise TypeError.

(** [login_user(form_data, db)] with [form_data.username] and
    [form_data.password]; the dict literal [{"sub": user.email}] is a new
    object.  The endpoint awaits the value of [authenticate_user]. *)
Definition login_user (h : heap) (db : db_handle)
    (username password : string) (now : Z) : result Token * heap :=
  match (rows ← db_query db;
         v ← authenticate_user rows username password;
         await_value v) with
  | Raise e => (Raise e, h)
  | Ret None =>
      (Raise (HTTPException 401 "Email o password incorrectos"
                            [("WWW-Authenticate", "Bearer")]), h)
  | Ret (Some user) =>
      let access_token_expires :=
        timedelta_minutes ACCESS_TOKEN_EXPIRE_MINUTES in
      let data : loc := fresh (dom h) in
      let h := <[data := {["sub" := PJson (JStr (UserModel.email user))]}]> h in
      let '(r, h) :=
        create_access_token h data (Some access_token_expires) now in
      (tok ← r; Ret {| access_token := tok; token_type := "bearer" |}, h)
  end.

End Login.

(** ** A reference backend

    A concrete instance of the two library interfaces, used to run the
    model: a value is serialised as the bits of its [Countable] code. *)

Module Reference.

Fixpoint pos_to_bits (p : positive) : string :=
  match p with
  | xH => EmptyString
  | xO p => String "0"%char (pos_to_bits p)
  | xI p => String "1"%char (pos_to_bits p)
  end.

Fixpoint bits_to_pos (s : string) : option positive :=
  match s with
  | EmptyString => Some xH
  | String c s =>
      if Ascii.eqb c "0"%char then xO <$> bits_to_pos s
      else if Ascii.eqb c "1"%char then xI <$> bits_to_pos s
      else None
  end.

Definition pack `{Countable A} (x : A) : string := pos_to_bits (encode x).

Definition unpack `{Countable A} (s : string) : option A :=
  bits_to_pos s ≫= decode.

#[local] Instance jfloat_countable : Countable jfloat.
Proof.
  refine (inj_countable'
    (fun x => match x with
              | Finite m e => inl (m, e)
              | Infinite n => inr (inl n)
              | NaN => inr (inr tt)
              end)
    (fun x => match x with
              | inl (m, e) => Finite m e
              | inr (inl n) => Infinite n
              | inr (inr _) => NaN
              end) _).
  by intros [].
Defined.

#[local] Instance jval_countable : Countable jval.
Proof.
  refine (inj_countable'
    (fun v => match v with
              | JStr s => inl s
              | JInt z => inr (inl z)
              | JBool b => inr (inr (inl b))
              | JNull => inr (inr (inr (inl tt)))
              | JFloat x => inr (inr (inr (inr (inl x))))
              | JCompound t => inr (inr (inr (inr (inr t))))
              end)
    (fun x => match x with
              | inl s => JStr s
              | inr (inl z) => JInt z
              | inr (inr (inl b)) => JBool b
              | inr (inr (inr (inl _))) => JNull
              | inr (inr (inr (inr (inl x)))) => JFloat x
              | inr (inr (inr (inr (inr t)))) => JCompound t
              end) _).
  by intros [].
Defined.

#[local] Instance jws_header_eq_dec : EqDecision jws_header.
Proof. solve_decision. Defined.

#[local] Instance jws_header_countable : Countable jws_header.
Proof.
  refine (inj_countable' alg (fun a => {| alg := a |}) _).
  by intros [].
Defined.

(** A keyed checksum stands for the MAC and for bcrypt. *)
Definition mac (key msg : string) : string :=
  pretty (foldl (fun acc c => (acc * 31 + Z.of_N (N_of_ascii c)) `mod` 1000003)
                7 (list_ascii_of_string (key +:+ msg))).

(** The reference [int] reads a [str] of decimal digits. *)
Definition digit_of (c : ascii) : option Z :=
  let n := Z.of_N (N_of_ascii c) in
  if (48 <=? n) && (n <=? 57) then Some (n - 48) else None.

Fixpoint digits_of (acc : Z) (s : string) : option Z :=
  match s with
  | EmptyString => Some acc
  | String c s => d ← digit_of c; digits_of (acc * 10 + d) s
  end.

Definition int_of (s : string) : option Z :=
  match s with
  | EmptyString => None
  | _ => digits_of 0 s
  end.

(** The text before the first dot and the text after it. *)
Fixpoint split_dot (s : string) : option (string * string) :=
  match s with
  | EmptyString => None
  | String c s =>
      if Ascii.eqb c "."%char then Some (EmptyString, s)
      else (fun '(a, b) => (String c a, b)) <$> split_dot s
  end.

Definition compact (signing_input sig : string) : string :=
  signing_input +:+ String "."%char sig.

Definition load (token : string)
    : option (jws_header * option (gmap string jval) * string * string) :=
  '(signing_input, signature) ← split_dot token;
  '(hd, payload) ← unpack (A := jws_header * gmap string jval) signing_input;
  Some (hd, Some payload, signing_input, signature).

Lemma bits_to_pos_to_bits (p : positive) : bits_to_pos (pos_to_bits p) = Some p.
Proof. induction p as [p IH|p IH|]; simpl; by rewrite ?IH. Qed.

Lemma unpack_pack `{Countable A} (x : A) : unpack (pack x) = Some x.
Proof.
  unfold unpack, pack. rewrite bits_to_pos_to_bits. simpl.
  apply decode_encode.
Qed.

Lemma split_dot_bits (p : positive) (sig : string) :
  split_dot (compact (pos_to_bits p) sig) = Some (pos_to_bits p, sig).
Proof.
  unfold compact. induction p as [p IH|p IH|]; simpl; [| |done].
  - by rewrite IH.
  - by rewrite IH.
Qed.

Lemma load_compact (hd : jws_header) (p : gmap string jval) (sig : string) :
  load (compact (pack (hd, p)) sig) = Some (hd, Some p, pack (hd, p), sig).
Proof.
  unfold load, pack at 1. rewrite split_dot_bits. simpl.
  fold (pack (hd, p)). by rewrite unpack_pack.
Qed.

Definition jose : JoseBackend := {|
  jws_mac := fun a => if String.eqb a "HS256" then Some mac else None;
  jws_signing_input := fun hd p => pack (hd, p);
  jws_compact := compact;
  jws_load := load;
  int_of_str := int_of;
  jws_mac_HS256 := ltac:(by eexists);
  jws_load_compact := load_compact
|}.

Definition passlib : PasslibBackend := {|
  bcrypt_checksum := mac;
  bcrypt_to_string := fun salt chk => pack (salt, chk);
  bcrypt_from_string := unpack;
  bcrypt_from_to_string := fun salt chk => unpack_pack (salt, chk)
|}.

End Reference.

(** ** Sample data for the reference backend *)

Module Demo.

Definition claims : gmap string jval := {["sub" := JStr "a@x.com"]}.

(** A heap whose object 1 is the dict [{"sub": "a@x.com"}]. *)
Definition h0 : heap := {[1%positive := PJson <$> claims]}.

Definition alice_hash : string :=
  Eval vm_compute in
    match get_password_hash (PB := Reference.passlib) "salt-1" "secret1" with
    | Ret hashed => hashed
    | Raise _ => ""
    end.

Definition alice : UserModel.t := {|
  UserModel.id := 1;
  UserModel.name := "Alice";
  UserModel.email := "a@x.com";
  UserModel.hashed_password := alice_hash;
  UserModel.age := 30;
  UserModel.is_active := true;
  UserModel.created_at := Some 0;
  UserModel.updated_at := None
|}.

Definition db : Session := [alice].

(** 72 bytes, and the same 72 bytes followed by one more. *)
Definition long_password : string :=
  string_of_list_ascii (replicate 72 "a"%char).
Definition longer_password : string := long_password +:+ "b".

(** The token that [create_access_token] issues for [claims] with a ttl
    of 30 minutes, 1.5 s after the epoch. *)
Definition alice_token : string :=
  Eval vm_compute in
    match (create_access_token (JB := Reference.jose)
             h0 1 (Some (timedelta_minutes 30)) 1500000).1 with
    | Ret tok => tok
    | Raise _ => ""
    end.

(** The compact serialisation of a payload under the header
    [{"alg": "HS256"}], signed with [SECRET_KEY]. *)
Definition signed (payload : gmap string jval) : string :=
  let signing_input :=
    jws_signing_input (JoseBackend := Reference.jose)
      {| alg := Some ALGORITHM |} payload in
  jws_compact (JoseBackend := Reference.jose) signing_input
    (Reference.mac SECRET_KEY signing_input).

(** A signed token for [{"sub": "a@x.com", "exp": null}]. *)
Definition null_exp_token : string :=
  Eval vm_compute in signed (<["exp" := JNull]> claims).

(** A password with a NUL byte. *)
Definition nul_password : string := String Ascii.zero "secret1".

End Demo.

(** ** [app/schemas.py] and the account endpoints of [app/main.py] *)

(** The body of a registration request, after validation. *)
Module UserCreate.
Record t := {
  name : string;
  email : string;
  age : Z;
  is_active : bool;
  password : string
}.
End UserCreate.

(** The dict of [common_parameters]; [skip] and [limit] are validated
    by the framework ([skip >= 0], [1 <= limit <= 100]) before the
    function is called. *)
Module Commons.
Record t := {
  skip : nat;
  limit : nat;
  search : option string
}.
End Commons.

Definition common_parameters (skip limit : nat) (search : option string)
    : Commons.t :=
  {| Commons.skip := skip; Commons.limit := limit; Commons.search := search |}.

(** [bool(s)] for an [Optional[str]]: false for [None] and for [""]. *)
Definition optional_str_bool (s : option string) : bool :=
  match s with
  | None => false
  | Some s => negb (String.eqb s "")
  end.

Section Accounts.
Context {PB : PasslibBackend}.

(** [register_user(user, db)].  The session is the list of rows; the
    row that [db.add], [commit] and [refresh] produce is appended, with
    the primary key [new_id] and the timestamp [created_at] that the
    database assigns.  [UserModel(...)] is built without [is_active], so
    the column default [True] applies; [salt] is the setting that
    [get_password_hash] draws. *)
Definition register_user (db : Session) (user : UserCreate.t)
    (salt : string) (new_id created_at : Z)
    : result UserModel.t * Session :=
  match query_filter_email_first db (JStr (UserCreate.email user)) with
  | Some existing_user =>
      (Raise (HTTPException 409 "Usuario ya existe" []), db)
  | None =>
      match get_password_hash salt (UserCreate.password user) with
      | Raise e => (Raise e, db)
      | Ret hashed_password =>
          let db_user := {|
            UserModel.id := new_id;
            UserModel.name := UserCreate.name user;
            UserModel.email := UserCreate.email user;
            UserModel.hashed_password := hashed_password;
            UserModel.age := UserCreate.age user;
            UserModel.is_active := true;
            UserModel.created_at := Some created_at;
            UserModel.updated_at := None
          |} in
          (Ret db_user, (db ++ [db_user])%list)
      end
  end.

End Accounts.

Section Listing.
(** [column.ilike(pattern)] of the database: the case-insensitive [LIKE]
    of a column value against a pattern. *)
Variable ilike : string -> string -> bool.

(** [get_users(commons, db, current_user)]: the rows that match the
    search, then [offset(skip)] and [limit(limit)]. *)
Definition get_users (commons : Commons.t) (db : Session)
    (current_user : UserModel.t) : result (list UserModel.t) :=
  let query :=
    if optional_str_bool (Commons.search commons)
    then
      let search_term := "%" +:+ default "" (Commons.search commons) +:+ "%" in
      List.filter (fun u => ilike (UserModel.name u) search_term
                            || ilike (UserModel.email u) search_term) db
    else db in
  let users := take (Commons.limit commons) (drop (Commons.skip commons) query) in
  match users with
  | [] => Raise (HTTPException 404 "No se encontraron usuarios" [])
  | _ => Ret users
  end.

End Listing.

(** ** Items: [app/models.py], [app/schemas.py] and the item endpoints of
    [app/main.py] *)

(** Python's [float].  The values and the operations on them are
    parameters; [float_bool] is [bool(x)], false for zero only. *)
Class PyFloat := {
  float : Type;
  float_of_int : Z -> float;
  float_bool : float -> bool;
  float_add : float -> float -> float;
  float_mul : float -> float -> float;
  float_div : float -> float -> float;
  float_le : float -> float -> bool;
  float_lt : float -> float -> bool
}.

Module ItemModel.
Record t `{PyFloat} := {
  id : Z;
  name : string;
  description : option string;
  price : float;
  tax : option float;
  created_at : option Z;
  updated_at : option Z;
  owner_id : Z
}.
End ItemModel.

Module ItemCreate.
Record t `{PyFloat} := {
  name : string;
  description : option string;
  price : float;
  tax : option float
}.
End ItemCreate.

Module ItemResponse.
Record t `{PyFloat} := {
  id : Z;
  name : string;
  description : option string;
  price : float;
  tax : option float;
  owner_id : Z;
  created_at : option Z;
  updated_at : option Z;
  total_price : float
}.
End ItemResponse.

(** The dict that [get_my_stats] returns. *)
Module MyStats.
Record t := {
  user : string;
  email : string;
  my_items_count : nat;
  member_since : option Z
}.
End MyStats.

Section Items.
Context {PF : PyFloat}.

(** [bool(x)] for an [Optional[float]]. *)
Definition optional_float_bool (x : option float) : bool :=
  match x with
  | None => false
  | Some x => float_bool x
  end.

(** [price * (tax / 100)] added to [price] when [tax] is true. *)
Definition price_with_tax (price : float) (tax : option float) : float :=
  match tax with
  | Some t =>
      if float_bool t
      then float_add price (float_mul price (float_div t (float_of_int 100)))
      else price
  | None => price
  end.

(** [ItemResponse.from_orm_with_total(item_orm)]. *)
Definition from_orm_with_total (item_orm : ItemModel.t) : ItemResponse.t :=
  let total_price :=
    price_with_tax (ItemModel.price item_orm) (ItemModel.tax item_orm) in
  {| ItemResponse.id := ItemModel.id item_orm;
     ItemResponse.name := ItemModel.name item_orm;
     ItemResponse.description := ItemModel.description item_orm;
     ItemResponse.price := ItemModel.price item_orm;
     ItemResponse.tax := ItemModel.tax item_orm;
     ItemResponse.owner_id := ItemModel.owner_id item_orm;
     ItemResponse.created_at := ItemModel.created_at item_orm;
     ItemResponse.updated_at := ItemModel.updated_at item_orm;
     ItemResponse.total_price := total_price |}.

(** [create_item(item, db, current_user)] on the rows of the [items]
    table; [new_id] and [created_at] are assigned by the database. *)
Definition create_item (items : list ItemModel.t) (item : ItemCreate.t)
    (current_user : UserModel.t) (new_id created_at : Z)
    : result ItemResponse.t * list ItemModel.t :=
  match List.find
          (fun i => String.eqb (ItemModel.name i) (ItemCreate.name item)
                    && (ItemModel.owner_id i =? UserModel.id current_user))
          items with
  | Some existing_item =>
      (Raise (HTTPException 409 "Ya tienes un item con este nombre" []),
       items)
  | None =>
      let db_item := {|
        ItemModel.id := new_id;
        ItemModel.name := ItemCreate.name item;
        ItemModel.description := ItemCreate.description item;
        ItemModel.price := ItemCreate.price item;
        ItemModel.tax := ItemCreate.tax item;
        ItemModel.created_at := Some created_at;
        ItemModel.updated_at := None;
        ItemModel.owner_id := UserModel.id current_user
      |} in
      (Ret (from_orm_with_total db_item), (items ++ [db_item])%list)
  end.

(** [get_my_stats(db, current_user)]. *)
Definition get_my_stats (items : list ItemModel.t)
    (current_user : UserModel.t) : MyStats.t :=
  let my_items_count :=
    length (List.filter
              (fun i => ItemModel.owner_id i =? UserModel.id current_user)
              items) in
  {| MyStats.user := UserModel.name current_user;
     MyStats.email := UserModel.email current_user;
     MyStats.my_items_count := my_items_count;
     MyStats.member_since := UserModel.created_at current_user |}.

End Items.

(** ** [main.py]: the item service on in-memory lists

    The module-level lists [fake_items_db], [fake_users_db] and
    [request_logs] are the [state]; an endpoint takes the state and
    returns the state it leaves.  What an endpoint reads from the clocks
    is an argument.  Output with [print] is left out. *)

(** [str.lower()] is a parameter. *)
Class PyStr := { str_lower : string -> string }.

(** [sub in s] for two [str]. *)
Fixpoint str_contains (sub s : string) : bool :=
  String.prefix sub s ||
  match s with
  | EmptyString => false
  | String _ s' => str_contains sub s'
  end.

Module Main.

Module Item.
Record t `{PyFloat} := {
  name : string;
  description : option string;
  price : float;
  tax : option float
}.
End Item.

(** [ItemResponse], and the dict of its [model_dump()] that
    [fake_items_db] holds. *)
Module ItemResponse.
Record t `{PyFloat} := {
  id : Z;
  name : string;
  description : option string;
  price : float;
  tax : option float;
  total_price : float;
  created_at : Z
}.
End ItemResponse.

Module User.
Record t := {
  name : string;
  email : string;
  age : Z;
  is_active : bool
}.
End User.

Module RequestLog.
Record t `{PyFloat} := {
  timestamp : Z;
  method : string;
  path : string;
  duration_ms : float
}.
End RequestLog.

(** The dict that [get_current_user] returns. *)
Module CurrentUser.
Record t := {
  id : Z;
  name : string;
  email : string;
  role : string
}.
End CurrentUser.

(** The dict that [get_db] yields. *)
Module DbConnection.
Record t := { status : string; type : string }.
End DbConnection.

Module Health.
Record t := { status : string; database : string; timestamp : Z }.
End Health.

Module LogsPage.
Record t `{PyFloat} := {
  total_logs : nat;
  returned : nat;
  logs : list RequestLog.t
}.
End LogsPage.

Module Stats.
Record t := {
  total_items : nat;
  total_users : nat;
  total_requests : nat;
  current_user : string
}.
End Stats.

Record state `{PyFloat} := {
  fake_items_db : list ItemResponse.t;
  fake_users_db : list User.t;
  request_logs : list RequestLog.t
}.

(** The closure [create_log] that [log_request] returns, given by what
    it reads when it is called: [datetime.now()] and the rounded
    duration since [start_time]. *)
Record Logger `{PyFloat} := {
  log_timestamp : Z;
  log_duration_ms : float
}.

Section Service.
Context {PF : PyFloat} {PS : PyStr}.

Definition get_db : DbConnection.t :=
  {| DbConnection.status := "connected"; DbConnection.type := "fake_db" |}.

(** [validate_api_key(credentials)]; [credentials] is [None] or carries
    the token of the [Authorization] header. *)
Definition validate_api_key (credentials : option string) : result string :=
  let valid_token := "mi-api-key-secreta" in
  match credentials with
  | None =>
      Raise (HTTPException 401 "Token de autorización requerido" [])
  | Some token =>
      if negb (String.eqb token valid_token)
      then Raise (HTTPException 401 "Token inválido" [])
      else Ret token
  end.

Definition get_current_user (token : string) : CurrentUser.t :=
  {| CurrentUser.id := 1;
     CurrentUser.name := "Usuario Demo";
     CurrentUser.email := "user@example.com";
     CurrentUser.role := "admin" |}.

(** [logger(method, path)]. *)
Definition create_log (logger : Logger) (method path : string) (st : state)
    : state :=
  let log_entry := {|
    RequestLog.timestamp := log_timestamp logger;
    RequestLog.method := method;
    RequestLog.path := path;
    RequestLog.duration_ms := log_duration_ms logger |} in
  {| fake_items_db := fake_items_db st;
     fake_users_db := fake_users_db st;
     request_logs := (request_logs st ++ [log_entry])%list |}.

Definition common_parameters (skip limit : nat) (search : option string)
    : Commons.t :=
  {| Commons.skip := skip; Commons.limit := limit; Commons.search := search |}.

Definition validate_item_data (item : Item.t) : result Item.t :=
  if float_le (Item.price item) (float_of_int 0)
  then Raise (HTTPException 400 "El precio debe ser mayor a 0" [])
  else if match Item.tax item with
          | Some tax =>
              float_bool tax
              && (float_lt tax (float_of_int 0)
                  || float_lt (float_of_int 100) tax)
          | None => false
          end
  then Raise (HTTPException 400 "El impuesto debe estar entre 0 y 100" [])
  else Ret item.

Definition health_check (db : DbConnection.t) (logger : Logger) (now : Z)
    (st : state) : Health.t * state :=
  let st := create_log logger "GET" "/health" st in
  ({| Health.status := "healthy";
      Health.database := DbConnection.status db;
      Health.timestamp := now |}, st).

(** The test of the search in [get_items]. *)
Definition item_matches (search_term : string) (item : ItemResponse.t)
    : bool :=
  str_contains search_term (str_lower (ItemResponse.name item))
  || match ItemResponse.description item with
     | Some d =>
         negb (String.eqb d "") && str_contains search_term (str_lower d)
     | None => false
     end.

Definition get_items (commons : Commons.t) (logger : Logger) (st : state)
    : result (list ItemResponse.t) * state :=
  let st := create_log logger "GET" "/items/" st in
  let items := fake_items_db st in
  let items :=
    match Commons.search commons with
    | Some search =>
        if negb (String.eqb search "")
        then List.filter (item_matches (str_lower search)) items
        else items
    | None => items
    end in
  let paginated_items :=
    take (Commons.limit commons) (drop (Commons.skip commons) items) in
  match paginated_items with
  | [] => (Raise (HTTPException 404 "No se encontraron items" []), st)
  | _ => (Ret paginated_items, st)
  end.

Definition id_exception : exn :=
  HTTPException 400 "El ID debe ser un número positivo" [].

Definition not_found (item_id : Z) : exn :=
  HTTPException 404 ("Item con ID " +:+ pretty item_id +:+ " no encontrado")
                [].

Definition get_item (item_id : Z) (logger : Logger) (st : state)
    : result ItemResponse.t * state :=
  let st := create_log logger "GET" ("/items/" +:+ pretty item_id) st in
  if item_id <=? 0 then (Raise id_exception, st)
  else
    match List.find (fun item => ItemResponse.id item =? item_id)
                    (fake_items_db st) with
    | Some item => (Ret item, st)
    | None => (Raise (not_found item_id), st)
    end.

(** [total_price] as [create_item] and [update_item] compute it. *)
Definition total_price_of (item : Item.t) : float :=
  price_with_tax (Item.price item) (Item.tax item).

Definition create_item (validated_item : Item.t)
    (current_user : CurrentUser.t) (logger : Logger) (now : Z) (st : state)
    : result ItemResponse.t * state :=
  let st := create_log logger "POST" "/items/" st in
  match List.find
          (fun existing_item =>
             String.eqb (str_lower (ItemResponse.name existing_item))
                        (str_lower (Item.name validated_item)))
          (fake_items_db st) with
  | Some existing_item =>
      (Raise (HTTPException 409
                ("Ya existe un item con el nombre '"
                 +:+ Item.name validated_item +:+ "'") []), st)
  | None =>
      let item_id := Z.of_nat (length (fake_items_db st)) + 1 in
      let created_at := now in
      let item_response := {|
        ItemResponse.id := item_id;
        ItemResponse.name := Item.name validated_item;
        ItemResponse.description := Item.description validated_item;
        ItemResponse.price := Item.price validated_item;
        ItemResponse.tax := Item.tax validated_item;
        ItemResponse.total_price := total_price_of validated_item;
        ItemResponse.created_at := created_at |} in
      (Ret item_response,
       {| fake_items_db := (fake_items_db st ++ [item_response])%list;
          fake_users_db := fake_users_db st;
          request_logs := request_logs st |})
  end.

Definition update_item (item_id : Z) (validated_item : Item.t)
    (current_user : CurrentUser.t) (logger : Logger) (st : state)
    : result ItemResponse.t * state :=
  let st := create_log logger "PUT" ("/items/" +:+ pretty item_id) st in
  if item_id <=? 0 then (Raise id_exception, st)
  else
    match list_find (fun existing_item =>
                       ItemResponse.id existing_item = item_id)
                    (fake_items_db st) with
    | None => (Raise (not_found item_id), st)
    | Some (item_index, existing_item) =>
        let updated_item := {|
          ItemResponse.id := item_id;
          ItemResponse.name := Item.name validated_item;
          ItemResponse.description := Item.description validated_item;
          ItemResponse.price := Item.price validated_item;
          ItemResponse.tax := Item.tax validated_item;
          ItemResponse.total_price := total_price_of validated_item;
          ItemResponse.created_at := ItemResponse.created_at existing_item |} in
        (Ret updated_item,
         {| fake_items_db := <[item_index := updated_item]> (fake_items_db st);
            fake_users_db := fake_users_db st;
            request_logs := request_logs st |})
    end.

Definition delete_item (item_id : Z) (current_user : CurrentUser.t)
    (logger : Logger) (st : state) : result unit * state :=
  let st := create_log logger "DELETE" ("/items/" +:+ pretty item_id) st in
  if item_id <=? 0 then (Raise id_exception, st)
  else
    match list_find (fun item => ItemResponse.id item = item_id)
                    (fake_items_db st) with
    | Some (i, item) =>
        (Ret tt,
         {| fake_items_db := delete i (fake_items_db st);
            fake_users_db := fake_users_db st;
            request_logs := request_logs st |})
    | None => (Raise (not_found item_id), st)
    end.

Definition admin_exception : exn :=
  HTTPException 403 "Se requieren permisos de administrador" [].

Definition get_logs (current_user : CurrentUser.t) (commons : Commons.t)
    (st : state) : result LogsPage.t :=
  if negb (String.eqb (CurrentUser.role current_user) "admin")
  then Raise admin_exception
  else
    let paginated_logs :=
      take (Commons.limit commons)
           (drop (Commons.skip commons) (request_logs st)) in
    Ret {| LogsPage.total_logs := length (request_logs st);
           LogsPage.returned := length paginated_logs;
           LogsPage.logs := paginated_logs |}.

Definition get_stats (current_user : CurrentUser.t) (st : state)
    : result Stats.t :=
  if negb (String.eqb (CurrentUser.role current_user) "admin")
  then Raise admin_exception
  else
    Ret {| Stats.total_items := length (fake_items_db st);
           Stats.total_users := length (fake_users_db st);
           Stats.total_requests := length (request_logs st);
           Stats.current_user := CurrentUser.name current_user |}.

End Service.

End Main.

(** * Properties *)

(** ** The token codec: decoding *)

Section TokenDecode.
Context {JB : JoseBackend}.


(** The conversion of a time claim gives a number, the [JWTClaimsError]
    for a value that is no integer, or the exception of [int] that is no
    [ValueError]. *)
Lemma claim_int_cases (v : jval) :
  (exists z, claim_int v = Ret z) \/
  claim_int v = Raise JWTClaimsError \/
  (exists e, int_uncaught v = Some e /\ claim_int v = Raise e).
Proof.
  unfold claim_int, py_int. destruct v as [s|z|b| |[m e|n|]|t]; simpl; eauto.
  destruct (int_of_str s); simpl; eauto.
Qed.


Lemma validate_iat_cases (c : gmap string jval) :
  validate_iat c = Ret tt \/
  validate_iat c = Raise JWTClaimsError \/
  (exists v e, c !! "iat" = Some v /\ int_uncaught v = Some e /\
               validate_iat c = Raise e).
Proof.
  unfold validate_iat. destruct (c !! "iat") as [v|]; [|by left].
  destruct (claim_int_cases v) as [[z ->]|[->|(e & He & ->)]]; simpl; eauto.
  right; right. by exists v, e.
Qed.

Lemma validate_nbf_cases (c : gmap string jval) (now_s : Z) :
  validate_nbf c now_s = Ret tt \/
  validate_nbf c now_s = Raise JWTClaimsError \/
  (exists v e, c !! "nbf" = Some v /\ int_uncaught v = Some e /\
               validate_nbf c now_s = Raise e).
Proof.
  unfold validate_nbf. destruct (c !! "nbf") as [v|]; [|by left].
  destruct (claim_int_cases v) as [[z ->]|[->|(e & He & ->)]]; simpl; eauto.
  - destruct (now_s <? z); eauto.
  - right; right. by exists v, e.
Qed.






Lemma verify_token_decode token now :
  verify_token token now =
  match jwt_decode token SECRET_KEY [ALGORITHM] now with
  | Ret c => Ret (Some c)
  | Raise e => if isinstance_JWTError e then Ret None else Raise e
  end.
Proof.
  unfold verify_token, try_except.
  by destruct (jwt_decode token SECRET_KEY [ALGORITHM] now).
Qed.

(** What [jwt.decode] amounts to on a token of the right structure. *)
Lemma jwt_decode_loaded token now hd payload signing_input signature :
  jws_load token = Some (hd, payload, signing_input, signature) ->
  jwt_decode token SECRET_KEY [ALGORITHM] now =
  match jws_mac ALGORITHM, payload with
  | Some mac, Some c =>
      if bool_decide (alg hd = Some ALGORITHM)
         && String.eqb (mac SECRET_KEY signing_input) signature
      then _ ← validate_claims c now; Ret c
      else Raise JWTError
  | _, _ => Raise JWTError
  end.
Proof.
  intros Hl. unfold jwt_decode, jws_verify. rewrite Hl.
  destruct jws_mac_HS256 as [mac Hmac]. change "HS256" with ALGORITHM in Hmac.
  rewrite Hmac.
  destruct (alg hd) as [a|] eqn:Ha; simpl.
  - destruct (String.eqb_spec a "") as [->|Hne]; simpl.
    { by destruct payload. }
    destruct (decide (a = ALGORITHM)) as [->|Hna].
    + rewrite (bool_decide_eq_true_2 (ALGORITHM ∈ [ALGORITHM]))
        by (by apply list_elem_of_singleton).
      simpl. rewrite Hmac.
      simpl. destruct (String.eqb _ signature); simpl; by destruct payload.
    + rewrite (bool_decide_eq_false_2 (a ∈ [ALGORITHM]))
        by (by intros ->%list_elem_of_singleton).
      rewrite (bool_decide_eq_false_2 (Some _ = Some _)) by congruence.
      simpl. by destruct payload.
  - by destruct payload.
Qed.

(** On a token with the right structure, algorithm and signature,
    [jwt.decode] is the validation of the claims. *)
Lemma jwt_decode_signed token now hd c signing_input signature mac :
  jws_load token = Some (hd, Some c, signing_input, signature) ->
  alg hd = Some ALGORITHM ->
  jws_mac ALGORITHM = Some mac ->
  mac SECRET_KEY signing_input = signature ->
  jwt_decode token SECRET_KEY [ALGORITHM] now
  = (_ ← validate_claims c now; Ret c).
Proof.
  intros Hl Ha Hm Hs.
  rewrite (jwt_decode_loaded _ _ _ _ _ _ Hl), Hm.
  rewrite bool_decide_eq_true_2 by done. simpl.
  by rewrite (proj2 (String.eqb_eq _ _) Hs).
Qed.


End TokenDecode.


(** ** The session gate *)

Section SessionGate.
Context {JB : JoseBackend}.

Lemma get_current_user_unfold token db now :
  get_current_user token db now =
  match jwt_decode token SECRET_KEY [ALGORITHM] now with
  | Raise e =>
      if isinstance_JWTError e then Raise credentials_exception else Raise e
  | Ret payload =>
      match payload !! "sub" with
      | None | Some JNull => Raise credentials_exception
      | Some email =>
          match get_user_by_email db email with
          | None => Raise credentials_exception
          | Some user => Ret user
          end
      end
  end.
Proof.
  unfold get_current_user. rewrite verify_token_decode. simpl.
  destruct (jwt_decode token SECRET_KEY [ALGORITHM] now) as [c|e]; [done|].
  by destruct (isinstance_JWTError e).
Qed.

(** C6. [get_current_active_user] returns the account it is given,
    unchanged, when the account is active; when it is not, it raises the
    400 "Usuario inactivo", which is not the 401 of
    [get_current_user]. *)
Theorem get_current_active_user_gate (current_user : UserModel.t) :
  (UserModel.is_active current_user = true ->
   get_current_active_user current_user = Ret current_user) /\
  (UserModel.is_active current_user = false ->
   get_current_active_user current_user =
     Raise (HTTPException 400 "Usuario inactivo" []) /\
   get_current_active_user current_user <> Raise credentials_exception /\
   forall detail headers,
     get_current_active_user current_user
     <> Raise (HTTPException 401 detail headers)).
Proof.
  unfold get_current_active_user.
  destruct (UserModel.is_active current_user); simpl.
  - by split.
  - split; [done|]. intros _. split_and!; [done|done|].
    intros detail headers. discriminate.
Qed.

End SessionGate.

(** ** The token codec: encoding *)

Section TokenEncode.
Context {JB : JoseBackend}.

Lemma json_dumps_primitive (c : gmap string jval) :
  json_dumps (PJson <$> c) = Ret c.
Proof.
  unfold json_dumps. rewrite bool_decide_eq_true_2.
  - f_equal. apply map_eq. intros k.
    rewrite lookup_omap, lookup_fmap. by destruct (c !! k).
  - intros k v. rewrite lookup_fmap.
    destruct (c !! k); intros [= <-]. by eexists.
Qed.

Lemma convert_time_claim_primitive (c : gmap string jval) (k : string) :
  convert_time_claim (PJson <$> c) k = PJson <$> c.
Proof.
  unfold convert_time_claim. rewrite lookup_fmap. by destruct (c !! k).
Qed.

(** The time-claim loop of [jwt.encode] on a dict of JSON values to which
    [create_access_token] has added the [datetime] [expire]. *)
Lemma convert_time_claims_expire (c : gmap string jval) (expire : Z) :
  foldl convert_time_claim (<["exp" := PDatetime expire]> (PJson <$> c))
        time_claims
  = PJson <$> <["exp" := JInt (timegm expire)]> c.
Proof.
  simpl. unfold convert_time_claim at 3. rewrite lookup_insert_eq.
  rewrite insert_insert_eq.
  replace (<["exp" := PJson (JInt (timegm expire))]> (PJson <$> c))
    with (PJson <$> <["exp" := JInt (timegm expire)]> c)
    by apply fmap_insert.
  by rewrite !convert_time_claim_primitive.
Qed.

(** [create_access_token] hands to [jwt.encode] a new dict: the entries
    of [data] with ["exp"] set to [expire]; when [expire] is no
    [datetime] it raises, and the new dict is the plain copy. *)
Lemma create_access_token_unfold h data d expires_delta now :
  h !! data = Some d ->
  create_access_token h data expires_delta now =
  if datetime_ok (expire_of expires_delta now)
  then
    jwt_encode
      (<[fresh (dom h) :=
           <["exp" := PDatetime (expire_of expires_delta now)]> d]> h)
      (fresh (dom h)) SECRET_KEY ALGORITHM
  else (Raise OverflowError, <[fresh (dom h) := d]> h).
Proof.
  intros Hd. unfold create_access_token. rewrite Hd.
  destruct (datetime_ok _); simpl; [|done].
  by rewrite alter_insert_eq.
Qed.

(** On a dict of JSON values [create_access_token] returns a token when
    the expiry is a [datetime], and that token decodes at any later clock
    reading to the payload (the entries of [data] with ["exp"] set to the
    whole seconds of [expire]) provided the claims validate. *)
Lemma create_access_token_primitive h data (c : gmap string jval)
    expires_delta now :
  h !! data = Some (PJson <$> c) ->
  datetime_ok (expire_of expires_delta now) = true ->
  let payload :=
    <["exp" := JInt (timegm (expire_of expires_delta now))]> c in
  exists tok signing_input signature,
    create_access_token h data expires_delta now
    = (Ret tok, <[fresh (dom h) := PJson <$> payload]> h) /\
    jws_load tok
    = Some ({| alg := Some ALGORITHM |}, Some payload,
            signing_input, signature) /\
    forall now', jwt_decode tok SECRET_KEY [ALGORITHM] now'
                 = (_ ← validate_claims payload now'; Ret payload).
Proof.
  intros Hd Hok payload.
  rewrite (create_access_token_unfold _ _ _ _ _ Hd), Hok.
  unfold jwt_encode. rewrite lookup_insert_eq, insert_insert_eq.
  rewrite convert_time_claims_expire. fold payload.
  unfold jws_sign. destruct jws_mac_HS256 as [mac Hmac].
  change "HS256" with ALGORITHM in Hmac. rewrite Hmac.
  rewrite json_dumps_primitive. simpl.
  do 3 eexists. split; [done|]. split; [apply jws_load_compact|].
  intros now'.
  erewrite jwt_decode_loaded by apply jws_load_compact.
  rewrite Hmac. simpl. by rewrite String.eqb_refl.
Qed.

Lemma expire_of_supplied (delta now : Z) :
  delta <> 0 -> expire_of (Some delta) now = now + delta.
Proof.
  intros Hne. unfold expire_of, timedelta_bool.
  by rewrite (proj2 (Z.eqb_neq _ _) Hne).
Qed.

Lemma expire_of_default (now : Z) :
  expire_of None now = now + timedelta_minutes 15.
Proof. done. Qed.


End TokenEncode.

(** ** The token codec: round trip and expiry *)

Section TokenRoundTrip.
Context {JB : JoseBackend}.

Lemma validate_claims_with_exp (c : gmap string jval) (exp now : Z) :
  registered_claims_ok c now ->
  validate_claims (<["exp" := JInt exp]> c) now =
  if exp <? timegm now then Raise ExpiredSignatureError else Ret tt.
Proof.
  intros (Hiat & Hnbf & Haud & Hsub & Hjti & Hat).
  unfold validate_claims, validate_iat, validate_nbf, validate_exp,
    validate_aud, validate_string_claim, validate_at_hash in *.
  rewrite lookup_insert_eq.
  rewrite !lookup_insert_ne by done.
  rewrite Hiat, Hnbf, Haud, Hsub, Hjti, Hat. simpl.
  by destruct (exp <? timegm now).
Qed.

(** Past the expiry the validation raises a [JWTError], provided [int]
    raises nothing but [ValueError] on ["iat"] and ["nbf"], which are
    converted before ["exp"] is looked at. *)
Lemma validate_claims_expired (c : gmap string jval) (exp now : Z) :
  claim_converts c "iat" ->
  claim_converts c "nbf" ->
  exp < timegm now ->
  exists e, validate_claims (<["exp" := JInt exp]> c) now = Raise e /\
            isinstance_JWTError e = true.
Proof.
  intros Hiat Hnbf Hlt. unfold validate_claims.
  destruct (validate_iat_cases (<["exp" := JInt exp]> c))
    as [Hi|[Hi|(v & e & Hv & He & _)]];
    [|rewrite Hi; by eexists
     |rewrite lookup_insert_ne in Hv by done;
      by rewrite (Hiat v Hv) in He].
  destruct (validate_nbf_cases (<["exp" := JInt exp]> c) (timegm now))
    as [Hb|[Hb|(v & e & Hv & He & _)]];
    [|rewrite Hi, Hb; by eexists
     |rewrite lookup_insert_ne in Hv by done;
      by rewrite (Hnbf v Hv) in He].
  rewrite Hi, Hb. simpl. unfold validate_exp.
  rewrite lookup_insert_eq. simpl.
  rewrite (proj2 (Z.ltb_lt _ _) Hlt). by eexists.
Qed.

Lemma timegm_mono (a b : Z) : a <= b -> timegm a <= timegm b.
Proof. intros Hle. apply Z.div_le_mono; [done|done]. Qed.


(** What [verify_token] returns on a token issued for claims of JSON
    values. *)
Lemma verify_issued_token h data (c : gmap string jval) expires_delta now :
  h !! data = Some (PJson <$> c) ->
  datetime_ok (expire_of expires_delta now) = true ->
  let exp := timegm (expire_of expires_delta now) in
  exists tok h',
    create_access_token h data expires_delta now = (Ret tok, h') /\
    (forall now', registered_claims_ok c now' -> timegm now' <= exp ->
                  verify_token tok now' = Ret (Some (<["exp" := JInt exp]> c))) /\
    (forall now', claim_converts c "iat" -> claim_converts c "nbf" ->
                  exp < timegm now' -> verify_token tok now' = Ret None).
Proof.
  intros Hd Hok exp. subst exp.
  destruct (create_access_token_primitive _ _ _ expires_delta now Hd Hok)
    as (tok & si & sg & Hc & _ & Hdec).
  exists tok; eexists. split; [exact Hc|]. split; intros now'.
  - intros Hreg Hle. rewrite verify_token_decode, Hdec.
    rewrite (validate_claims_with_exp _ _ _ Hreg).
    by rewrite (proj2 (Z.ltb_ge _ _) Hle).
  - intros Hiat Hnbf Hlt. rewrite verify_token_decode, Hdec.
    destruct (validate_claims_expired c _ _ Hiat Hnbf Hlt) as (e & -> & He).
    simpl. by rewrite He.
Qed.


(** Without the condition on the registered claims there is no round
    trip: [verify_token] is called without an audience, and a token whose
    claims carry an ["aud"] is never accepted. *)
Lemma token_with_audience_rejected h data (c : gmap string jval)
    expires_delta now :
  h !! data = Some (PJson <$> c) ->
  datetime_ok (expire_of expires_delta now) = true ->
  is_Some (c !! "aud") ->
  exists tok h',
    create_access_token h data expires_delta now = (Ret tok, h') /\
    forall now' c', verify_token tok now' <> Ret (Some c').
Proof.
  intros Hd Hok [v Hv].
  destruct (create_access_token_primitive _ _ _ expires_delta now Hd Hok)
    as (tok & si & sg & Hc & _ & Hdec).
  exists tok; eexists. split; [exact Hc|]. intros now' c'.
  rewrite verify_token_decode, Hdec.
  unfold validate_claims, validate_aud.
  rewrite (lookup_insert_ne _ "exp" "aud") by done. rewrite Hv.
  destruct (validate_iat _) as [[]|e]; simpl; [|by destruct (_ e)].
  destruct (validate_nbf _ _) as [[]|e]; simpl; [|by destruct (_ e)].
  by destruct (validate_exp _ _) as [[]|e]; simpl; [|destruct (_ e)].
Qed.

(** With [timedelta(0)] as ttl the test [if expires_delta:] fails, and the
    token is issued as if no ttl had been given. *)
Lemma expire_of_zero (now : Z) :
  expire_of (Some 0) now = expire_of None now.
Proof. done. Qed.

(** C4 at [expires_delta = timedelta(0)]: the call is the call without a
    ttl, and the expiry it sets is now + 15 minutes, not now + 0. *)
Theorem create_access_token_zero_ttl_is_default
    (h : heap) (data : loc) (now : Z) :
  create_access_token h data (Some 0) now
  = create_access_token h data None now /\
  expire_of (Some 0) now = now + timedelta_minutes 15 /\
  expire_of (Some 0) now <> now + 0.
Proof.
  split_and!.
  - unfold create_access_token. by rewrite expire_of_zero.
  - done.
  - rewrite expire_of_zero, expire_of_default.
    unfold timedelta_minutes, MICROSECONDS. lia.
Qed.

(** A token issued with [timedelta(0)] as ttl is accepted by
    [verify_token] at the instant of issuance and for the fifteen minutes
    that follow. *)
Lemma zero_ttl_token_is_accepted
    (h : heap) (data : loc) (c : gmap string jval) (now now1 : Z) :
  h !! data = Some (PJson <$> c) ->
  datetime_ok (now + timedelta_minutes 15) = true ->
  registered_claims_ok c now1 ->
  now <= now1 < now + timedelta_minutes 15 ->
  exists tok h',
    create_access_token h data (Some 0) now = (Ret tok, h') /\
    verify_token tok now1
    = Ret (Some (<["exp" := JInt (timegm (now + timedelta_minutes 15))]> c)).
Proof.
  intros Hd Hok Hreg [Hle Hlt].
  destruct (verify_issued_token _ _ _ (Some 0) now Hd Hok)
    as (tok & h' & Hc & Hvalid & _).
  exists tok, h'. split; [done|].
  apply Hvalid; [done|]. apply timegm_mono. rewrite expire_of_zero.
  rewrite expire_of_default. lia.
Qed.

(** The expiry that [create_access_token] sets for a ttl other than
    [timedelta(0)] and without a ttl, on a dict that may already hold an
    ["exp"]. *)
Lemma create_access_token_expiry h data (c : gmap string jval)
    expires_delta now :
  h !! data = Some (PJson <$> c) ->
  datetime_ok (expire_of expires_delta now) = true ->
  exists tok h' payload,
    create_access_token h data expires_delta now = (Ret tok, h') /\
    (forall now', jwt_decode tok SECRET_KEY [ALGORITHM] now'
                  = (_ ← validate_claims payload now'; Ret payload)) /\
    match expires_delta with
    | Some delta =>
        delta <> 0 -> payload !! "exp" = Some (JInt (timegm (now + delta)))
    | None =>
        payload !! "exp" = Some (JInt (timegm (now + timedelta_minutes 15)))
    end.
Proof.
  intros Hd Hok.
  destruct (create_access_token_primitive _ _ _ expires_delta now Hd Hok)
    as (tok & si & sg & Hc & _ & Hdec).
  exists tok; do 2 eexists. split; [exact Hc|]. split; [exact Hdec|].
  destruct expires_delta as [delta|].
  - intros Hne. by rewrite lookup_insert_eq, expire_of_supplied.
  - by rewrite lookup_insert_eq.
Qed.

End TokenRoundTrip.

(** ** The account lookup *)

Lemma query_filter_email_first_Some (db : Session) (e : string) u :
  query_filter_email_first db (JStr e) = Some u ->
  u ∈ db /\ UserModel.email u = e.
Proof.
  intros [Hin Heq]%List.find_some. split.
  - by apply list_elem_of_In.
  - apply bool_decide_eq_true in Heq. by simplify_eq.
Qed.

Lemma query_filter_email_first_None (db : Session) (e : string) :
  query_filter_email_first db (JStr e) = None <->
  forall u, u ∈ db -> UserModel.email u <> e.
Proof.
  split.
  - intros Hn u Hin%list_elem_of_In Heq.
    apply (List.find_none _ _ Hn) in Hin.
    apply bool_decide_eq_false in Hin. apply Hin. by rewrite Heq.
  - intros Hall. unfold query_filter_email_first.
    induction db as [|u db IH]; [done|]. simpl.
    rewrite bool_decide_eq_false_2.
    + apply IH. intros u' Hin. apply Hall. by right.
    + intros [= Heq]. by apply (Hall u); [left|].
Qed.

(** Where emails are unique the row found is the only one with that
    email. *)
Lemma query_filter_email_first_unique (db : Session) (e : string) u u' :
  NoDup (UserModel.email <$> db) ->
  query_filter_email_first db (JStr e) = Some u ->
  u' ∈ db -> UserModel.email u' = e -> u' = u.
Proof.
  intros Hnd [Hin He]%query_filter_email_first_Some Hin' He'.
  apply list_elem_of_lookup in Hin as [i Hi].
  apply list_elem_of_lookup in Hin' as [j Hj].
  assert (i = j) as ->; [|congruence].
  eapply NoDup_lookup; [exact Hnd| |].
  - rewrite list_lookup_fmap, Hi. simpl. by rewrite He.
  - rewrite list_lookup_fmap, Hj. simpl. by rewrite He'.
Qed.

(** ** The credential hasher and the principal resolver *)

Section Principal.
Context {PB : PasslibBackend}.

(** A secret with a NUL byte is not hashed. *)
Lemma get_password_hash_rejects_nul (salt p : string) :
  has_nul p = true -> get_password_hash salt p = Raise ValueError.
Proof.
  intros Hn. unfold get_password_hash, pwd_context_hash, secret_ok.
  by rewrite Hn, andb_false_r.
Qed.

(** An exception of [verify_password] leaves [authenticate_user]
    uncaught. *)
Lemma authenticate_user_raises (db : Session) (email password : string)
    user e :
  query_filter_email_first db (JStr email) = Some user ->
  verify_password password (UserModel.hashed_password user) = Raise e ->
  authenticate_user db email password = Raise e.
Proof. intros Hq Hv. unfold authenticate_user. by rewrite Hq, Hv. Qed.


(** C10. When [authenticate_user] returns an account, the account is a
    row of the store, it is the row the lookup by the given email finds,
    its email is the given email, and the given password verifies against
    its stored hash; where emails are unique it is the only row with that
    email. *)
Theorem authenticate_user_sound
    (db : Session) (email password : string) (user : UserModel.t) :
  authenticate_user db email password = Ret (Some user) ->
  user ∈ db /\
  UserModel.email user = email /\
  query_filter_email_first db (JStr email) = Some user /\
  verify_password password (UserModel.hashed_password user) = Ret true /\
  (NoDup (UserModel.email <$> db) ->
   forall u, u ∈ db -> UserModel.email u = email -> u = user).
Proof.
  unfold authenticate_user. intros Hr.
  destruct (query_filter_email_first db (JStr email)) as [u|] eqn:Hq;
    [|done].
  destruct (verify_password password (UserModel.hashed_password u))
    as [[]|] eqn:Hv; simpl in Hr; simplify_eq.
  destruct (query_filter_email_first_Some _ _ _ Hq) as [Hin He].
  split_and!; try done.
  intros Hnd u Hu Heq. by eapply query_filter_email_first_unique.
Qed.

Lemma verify_password_hashed (salt p p1 : string) :
  secret_ok p = true -> secret_ok p1 = true ->
  exists hashed,
    get_password_hash salt p = Ret hashed /\
    verify_password p1 hashed
    = Ret (String.eqb (bcrypt_checksum salt (bcrypt_truncate p1))
                      (bcrypt_checksum salt (bcrypt_truncate p))).
Proof.
  intros Hp Hp1. eexists.
  unfold get_password_hash, pwd_context_hash. rewrite Hp. split; [done|].
  unfold verify_password, pwd_context_verify.
  by rewrite bcrypt_from_to_string, Hp1.
Qed.

(** C8, as the code has it.  For every secret [p] that passlib accepts
    (at most 4096 bytes, no NUL) and every salt, hashing returns a hash
    against which [p] verifies; hashes of [p] under different salts
    differ.  Another accepted secret [p1] verifies against the hash of
    [p] exactly when its bcrypt checksum under the salt of the hash is
    that of [p], which is so whenever the two agree on their first 72
    bytes. *)
Theorem verify_password_round_trip (salt p : string) :
  secret_ok p = true ->
  exists hashed,
    get_password_hash salt p = Ret hashed /\
    verify_password p hashed = Ret true /\
    (forall salt' hashed',
        get_password_hash salt' p = Ret hashed' ->
        salt' <> salt -> hashed' <> hashed) /\
    (forall p1, secret_ok p1 = true ->
        verify_password p1 hashed
        = Ret (String.eqb (bcrypt_checksum salt (bcrypt_truncate p1))
                          (bcrypt_checksum salt (bcrypt_truncate p)))) /\
    (forall p1, secret_ok p1 = true ->
        bcrypt_truncate p1 = bcrypt_truncate p ->
        verify_password p1 hashed = Ret true).
Proof.
  intros Hp.
  destruct (verify_password_hashed salt p p Hp Hp) as (hashed & Hh & Hv).
  exists hashed. rewrite String.eqb_refl in Hv.
  assert (Hother : forall p1, secret_ok p1 = true ->
    verify_password p1 hashed
    = Ret (String.eqb (bcrypt_checksum salt (bcrypt_truncate p1))
                      (bcrypt_checksum salt (bcrypt_truncate p)))).
  { intros p1 Hp1.
    destruct (verify_password_hashed salt p p1 Hp Hp1) as (hashed' & Hh' & Hv').
    rewrite Hh in Hh'. by injection Hh' as ->. }
  split_and!; try done.
  - intros salt' hashed' Hh' Hne ->.
    unfold get_password_hash, pwd_context_hash in Hh, Hh'.
    rewrite Hp in Hh, Hh'. simplify_eq.
    assert (Some (salt', bcrypt_checksum salt' (bcrypt_truncate p))
            = Some (salt, bcrypt_checksum salt (bcrypt_truncate p))) as Heq.
    { by rewrite <- !bcrypt_from_to_string, Hh. }
    by simplify_eq.
  - intros p1 Hp1 Ht. by rewrite (Hother p1 Hp1), Ht, String.eqb_refl.
Qed.

End Principal.

(** ** The model at work on the reference backend *)

Section Examples.
#[local] Existing Instance Reference.jose.
#[local] Existing Instance Reference.passlib.

(** The session gate: a token issued for the email of an account
    resolves to the account; after its expiry second, and when it is
    tampered with, the gate answers with the 401; for a deactivated
    account the second gate answers with the 400. *)
Example issued_token_current_user :
  get_current_user Demo.alice_token Demo.db 1600000 = Ret Demo.alice.
Proof. vm_compute. reflexivity. Qed.

Example expired_token_unauthenticated :
  get_current_user Demo.alice_token Demo.db
    (1500000 + timedelta_minutes 30 + MICROSECONDS)
  = Raise credentials_exception.
Proof. vm_compute. reflexivity. Qed.

Example tampered_token_unauthenticated :
  get_current_user (Demo.alice_token +:+ "0") Demo.db 1600000
  = Raise credentials_exception.
Proof. vm_compute. reflexivity. Qed.

Example verified_token_gives_claims :
  verify_token Demo.alice_token 1600000
  = Ret (Some (<["exp" := JInt 1801]> Demo.claims)).
Proof. vm_compute. reflexivity. Qed.

Example malformed_token_absent :
  verify_token "not-a-token" 1600000 = Ret None.
Proof. vm_compute. reflexivity. Qed.

Example inactive_account_rejected :
  get_current_active_user
    {| UserModel.id := 2; UserModel.name := "Bob";
       UserModel.email := "b@x.com"; UserModel.hashed_password := "";
       UserModel.age := 40; UserModel.is_active := false;
       UserModel.created_at := Some 0; UserModel.updated_at := None |}
  = Raise (HTTPException 400 "Usuario inactivo" []).
Proof. reflexivity. Qed.

Example wrong_password_rejected :
  authenticate_user Demo.db "a@x.com" "secret2" = Ret None.
Proof. vm_compute. reflexivity. Qed.

End Examples.

(** ** Evaluations, witnesses and counterexamples *)

Section Evaluations.
#[local] Existing Instance Reference.jose.
#[local] Existing Instance Reference.passlib.

(** C1 at a token for [{"sub": "a@x.com", "exp": null}] signed with
    [SECRET_KEY]: [jwt.decode] converts the expiry with [int] and
    catches [ValueError] only, the [TypeError] of [int(None)] is no
    [JWTError], and [verify_token] raises it instead of returning
    [None]. *)
Theorem verify_token_raises_on_null_expiry :
  verify_token Demo.null_exp_token 1500000 = Raise TypeError /\
  jws_load Demo.null_exp_token
  = Some ({| alg := Some ALGORITHM |},
          Some (<["exp" := JNull]> Demo.claims),
          jws_signing_input {| alg := Some ALGORITHM |}
            (<["exp" := JNull]> Demo.claims),
          Reference.mac SECRET_KEY
            (jws_signing_input {| alg := Some ALGORITHM |}
               (<["exp" := JNull]> Demo.claims))) /\
  verify_token Demo.null_exp_token 1500000 <> Ret None.
Proof.
  assert (verify_token Demo.null_exp_token 1500000 = Raise TypeError) as Hv
    by (vm_compute; reflexivity).
  split; [exact Hv|]. split; [vm_compute; reflexivity|].
  rewrite Hv. discriminate.
Qed.

(** C2 at the same token, for the store that holds the account of
    a@x.com: the token does not decode, and [get_current_user] raises
    [TypeError], not the 401 of its other failures. *)
Theorem get_current_user_raises_on_null_expiry :
  get_current_user Demo.null_exp_token Demo.db 1500000 = Raise TypeError /\
  get_current_user Demo.null_exp_token Demo.db 1500000
  <> Raise credentials_exception /\
  get_current_user "not-a-token" Demo.db 1500000
  = Raise credentials_exception.
Proof.
  assert (get_current_user Demo.null_exp_token Demo.db 1500000
          = Raise TypeError) as Hg by (vm_compute; reflexivity).
  split; [exact Hg|]. split; [rewrite Hg; discriminate|].
  vm_compute. reflexivity.
Qed.

(** C3 at [data = {"sub": "a@x.com"}], [expires_delta = timedelta(0)],
    issued 1.5 s after the epoch: [verify_token], called at the very
    instant of issuance, does not return [None]; it returns the claims,
    with an expiry of 901 s, fifteen minutes after issuance. *)
Theorem zero_ttl_token_decodes :
  (create_access_token Demo.h0 1 (Some 0) 1500000).1
    ≫= (fun tok => verify_token tok 1500000)
  = Ret (Some (<["exp" := JInt 901]> Demo.claims)).
Proof. vm_compute. reflexivity. Qed.


(** A secret of 73 bytes verifies against the hash of its first 72
    bytes: the two secrets differ and passlib accepts both. *)
Lemma verify_password_accepts_longer_password :
  Demo.longer_password <> Demo.long_password /\
  secret_ok Demo.long_password = true /\
  secret_ok Demo.longer_password = true /\
  exists hashed,
    get_password_hash "salt-1" Demo.long_password = Ret hashed /\
    verify_password Demo.longer_password hashed = Ret true.
Proof.
  split; [apply String.eqb_neq; vm_compute; reflexivity|].
  split; [vm_compute; reflexivity|]. split; [vm_compute; reflexivity|].
  eexists. split; vm_compute; reflexivity.
Qed.




Lemma authenticate_user_sound_witness :
  Demo.alice ∈ Demo.db /\
  verify_password "secret1" (UserModel.hashed_password Demo.alice) = Ret true.
Proof.
  destruct (authenticate_user_sound Demo.db "a@x.com" "secret1" Demo.alice)
    as (Hin & _ & _ & Hv & _).
  - vm_compute. reflexivity.
  - split; [exact Hin|exact Hv].
Defined.

Lemma verify_password_round_trip_witness :
  exists hashed,
    get_password_hash "salt-1" "secret1" = Ret hashed /\
    verify_password "secret1" hashed = Ret true.
Proof.
  destruct (verify_password_round_trip "salt-1" "secret1")
    as (hashed & Hh & Hv & _).
  - vm_compute. reflexivity.
  - exists hashed. split; [exact Hh|exact Hv].
Defined.

End Evaluations.

(** * Further properties *)

(** ** Sample data for the further properties *)

Module Samples.

(** A token for [{"sub": "a@x.com"}] signed with [SECRET_KEY], without an
    expiry. *)
Definition token_without_exp : string :=
  Eval vm_compute in
    let signing_input :=
      jws_signing_input (JoseBackend := Reference.jose)
        {| alg := Some ALGORITHM |} Demo.claims in
    jws_compact (JoseBackend := Reference.jose) signing_input
      (Reference.mac SECRET_KEY signing_input).


Definition bob_request : UserCreate.t := {|
  UserCreate.name := "Bob";
  UserCreate.email := "b@x.com";
  UserCreate.age := 40;
  UserCreate.is_active := false;
  UserCreate.password := "secret2"
|}.

(** The account that the registration of [bob_request] creates in
    [Demo.db], with the id 2 and the timestamp 0. *)
Definition bob : UserModel.t :=
  Eval vm_compute in
    match (register_user (PB := Reference.passlib)
             Demo.db bob_request "salt-2" 2 0).1 with
    | Ret db_user => db_user
    | Raise _ => Demo.alice
    end.

Definition db2 : Session := [Demo.alice; bob].

End Samples.

(** ** What [verify_token] accepts *)

Section TokenSoundness.
Context {JB : JoseBackend}.

Lemma validate_claims_Ret (c : gmap string jval) (now : Z) :
  validate_claims c now = Ret tt <->
  validate_iat c = Ret tt /\
  validate_nbf c (timegm now) = Ret tt /\
  validate_exp c (timegm now) = Ret tt /\
  validate_aud c = Ret tt /\
  validate_string_claim "sub" c = Ret tt /\
  validate_string_claim "jti" c = Ret tt /\
  validate_at_hash c = Ret tt.
Proof.
  unfold validate_claims. split.
  - intros Hv.
    destruct (validate_iat c) as [[]|]; [|done].
    destruct (validate_nbf c _) as [[]|]; [|done].
    destruct (validate_exp c _) as [[]|]; [|done].
    destruct (validate_aud c) as [[]|]; [|done].
    destruct (validate_string_claim "sub" c) as [[]|]; [|done].
    destruct (validate_string_claim "jti" c) as [[]|]; [|done].
    simpl in Hv. by rewrite Hv.
  - intros (-> & -> & -> & -> & -> & -> & ->). done.
Qed.

Lemma claim_int_Ret (v : jval) (z : Z) :
  claim_int v = Ret z -> py_int v = Ret z.
Proof.
  unfold claim_int, try_except.
  destruct (py_int v) as [z'|e]; [done|].
  by destruct (isinstance_ValueError e).
Qed.

(** The token that [jwt.decode] accepts, taken apart. *)
Lemma jwt_decode_Ret (token : string) (now : Z) (c : gmap string jval) :
  jwt_decode token SECRET_KEY [ALGORITHM] now = Ret c <->
  exists hd signing_input signature mac,
    jws_load token = Some (hd, Some c, signing_input, signature) /\
    alg hd = Some ALGORITHM /\
    jws_mac ALGORITHM = Some mac /\
    mac SECRET_KEY signing_input = signature /\
    validate_claims c now = Ret tt.
Proof.
  split.
  - intros Hd.
    destruct (jws_load token) as [[[[hd payload] si] sg]|] eqn:Hl.
    + rewrite (jwt_decode_loaded _ _ _ _ _ _ Hl) in Hd.
      destruct (jws_mac ALGORITHM) as [mac|] eqn:Hm; [|done].
      destruct payload as [c'|]; [|done].
      destruct (bool_decide (alg hd = Some ALGORITHM)) eqn:Ha; [|done].
      destruct (String.eqb_spec (mac SECRET_KEY si) sg) as [Hs|]; [|done].
      simpl in Hd.
      destruct (validate_claims c' now) as [[]|] eqn:Hc; [|done].
      simpl in Hd. injection Hd as ->.
      exists hd, si, sg, mac. apply bool_decide_eq_true in Ha. done.
    + unfold jwt_decode, jws_verify in Hd. by rewrite Hl in Hd.
  - intros (hd & si & sg & mac & Hl & Ha & Hm & Hs & Hc).
    by rewrite (jwt_decode_signed _ _ _ _ _ _ _ Hl Ha Hm Hs), Hc.
Qed.

Lemma verify_token_Ret (token : string) (now : Z) (c : gmap string jval) :
  verify_token token now = Ret (Some c) <->
  jwt_decode token SECRET_KEY [ALGORITHM] now = Ret c.
Proof.
  rewrite verify_token_decode.
  destruct (jwt_decode token SECRET_KEY [ALGORITHM] now) as [c'|e].
  - split; congruence.
  - destruct (isinstance_JWTError e); split; congruence.
Qed.


(** X1. [verify_token] returns claims only for a token that it could
    check: the token has the structure of a JWS, its header names HS256,
    its signature is the MAC of its signing input under [SECRET_KEY], the
    claims returned are its payload, an ["exp"] in them is a value that
    [int] converts (a number, a boolean, the text of an integer) to a
    second not below the whole seconds of the clock, an ["nbf"] one that
    it converts to a second not above them, an ["iat"] one that it
    converts, a ["sub"] is a string, and there is no ["aud"]. *)
Theorem verify_token_sound
    (token : string) (now : Z) (c : gmap string jval) :
  verify_token token now = Ret (Some c) ->
  (exists hd signing_input signature mac,
     jws_load token = Some (hd, Some c, signing_input, signature) /\
     alg hd = Some ALGORITHM /\
     jws_mac ALGORITHM = Some mac /\
     mac SECRET_KEY signing_input = signature) /\
  (forall v, c !! "exp" = Some v ->
     exists exp, py_int v = Ret exp /\ timegm now <= exp) /\
  (forall v, c !! "nbf" = Some v ->
     exists nbf, py_int v = Ret nbf /\ nbf <= timegm now) /\
  (forall v, c !! "iat" = Some v -> exists iat, py_int v = Ret iat) /\
  (forall v, c !! "sub" = Some v -> exists s, v = JStr s) /\
  c !! "aud" = None.
Proof.
  intros Hd%verify_token_Ret.
  apply jwt_decode_Ret in Hd as (hd & si & sg & mac & Hl & Ha & Hm & Hs & Hc).
  apply validate_claims_Ret in Hc as (Hiat & Hnbf & Hexp & Haud & Hsub & _).
  split_and!.
  - by exists hd, si, sg, mac.
  - intros v Hv. unfold validate_exp in Hexp. rewrite Hv in Hexp.
    destruct (claim_int v) as [exp|] eqn:Hci; [|done]. simpl in Hexp.
    exists exp. split; [by apply claim_int_Ret|].
    destruct (Z.ltb_spec exp (timegm now)); [done|lia].
  - intros v Hv. unfold validate_nbf in Hnbf. rewrite Hv in Hnbf.
    destruct (claim_int v) as [nbf|] eqn:Hci; [|done]. simpl in Hnbf.
    exists nbf. split; [by apply claim_int_Ret|].
    destruct (Z.ltb_spec (timegm now) nbf); [done|lia].
  - intros v Hv. unfold validate_iat in Hiat. rewrite Hv in Hiat.
    destruct (claim_int v) as [iat|] eqn:Hci; [|done].
    exists iat. by apply claim_int_Ret.
  - intros v Hv. unfold validate_string_claim in Hsub. rewrite Hv in Hsub.
    destruct v; try done. by eexists.
  - unfold validate_aud in Haud. by destruct (c !! "aud").
Qed.

(** X2. [verify_token] does not ask for an expiry: a token that it
    accepts once and whose claims hold neither ["exp"] nor ["nbf"] is
    accepted at every clock reading. *)
Theorem token_without_exp_never_expires
    (token : string) (now : Z) (c : gmap string jval) :
  verify_token token now = Ret (Some c) ->
  c !! "exp" = None ->
  c !! "nbf" = None ->
  forall now', verify_token token now' = Ret (Some c).
Proof.
  intros Hd%verify_token_Ret Hexp Hnbf now'.
  apply jwt_decode_Ret in Hd as (hd & si & sg & mac & Hl & Ha & Hm & Hs & Hc).
  apply verify_token_Ret, jwt_decode_Ret.
  exists hd, si, sg, mac. split_and!; try done.
  apply validate_claims_Ret in Hc as (? & _ & _ & ? & ? & ? & ?).
  apply validate_claims_Ret. split_and!; try done.
  - unfold validate_nbf. by rewrite Hnbf.
  - unfold validate_exp. by rewrite Hexp.
Qed.


End TokenSoundness.


(** ** Edge cases of [create_access_token] *)

Section TokenEdges.
Context {JB : JoseBackend}.





End TokenEdges.

(** ** The session gate, continued *)

Section Gate.
Context {JB : JoseBackend}.

(** X5. An account that [get_current_user] returns is a row of the
    store, and its email is the subject, a string, of the claims that
    [verify_token] returned for the token. *)
Theorem get_current_user_sound
    (token : string) (db : Session) (now : Z) (user : UserModel.t) :
  get_current_user token db now = Ret user ->
  user ∈ db /\
  exists c,
    verify_token token now = Ret (Some c) /\
    c !! "sub" = Some (JStr (UserModel.email user)) /\
    get_user_by_email db (JStr (UserModel.email user)) = Some user.
Proof.
  unfold get_current_user.
  destruct (verify_token token now) as [[c|]|e]; simpl; [|done|done].
  destruct (c !! "sub") as [email|] eqn:Hs; [|done].
  destruct (get_user_by_email db email) as [u|] eqn:Hg;
    [|by destruct email].
  intros Hr. assert (u = user) as -> by (destruct email; by simplify_eq).
  pose proof Hg as Hfound.
  unfold get_user_by_email, query_filter_email_first in Hg.
  apply List.find_some in Hg as [Hin Heq].
  apply bool_decide_eq_true in Heq as <-.
  split; [by apply list_elem_of_In|].
  by exists c.
Qed.


End Gate.


(** ** The login endpoint *)

Section LoginEndpoint.
Context {JB : JoseBackend} {PB : PasslibBackend}.

Definition login_exception : exn :=
  HTTPException 401 "Email o password incorrectos"
                [("WWW-Authenticate", "Bearer")].

(** [authenticate_user] raises what the hasher raises, a
    [ValueError]. *)
Lemma authenticate_user_raises_ValueError
    (db : Session) (email password : string) (e : exn) :
  authenticate_user db email password = Raise e -> e = ValueError.
Proof.
  unfold authenticate_user, verify_password, pwd_context_verify.
  intros Hr. repeat (case_match; simpl in Hr); simplify_eq; done.
Qed.

(** X8. [login_user] never returns a token and never answers with its
    401: it awaits the value of [authenticate_user], which is a plain
    function, and the [await] raises [TypeError].  With the
    [AsyncSession] that the application passes, [authenticate_user]
    itself raises [AttributeError] at [db.query]; with a synchronous
    [Session] the endpoint raises the [ValueError] of the hasher where
    [authenticate_user] raises it and [TypeError] otherwise, for right
    and for wrong credentials alike.  No dict is created. *)
Theorem login_user_always_raises
    (h : heap) (db : db_handle) (username password : string) (now : Z) :
  exists e,
    login_user h db username password now = (Raise e, h) /\
    (e = AttributeError \/ e = TypeError \/ e = ValueError) /\
    e <> login_exception /\
    match db with
    | AsyncSession _ => e = AttributeError
    | SyncSession rows =>
        match authenticate_user rows username password with
        | Ret _ => e = TypeError
        | Raise e' => e = e'
        end
    end.
Proof.
  unfold login_user. destruct db as [rows|rows]; simpl.
  - destruct (authenticate_user rows username password) as [v|e] eqn:Ha;
      simpl.
    + exists TypeError. split_and!; eauto; done.
    + exists e. apply authenticate_user_raises_ValueError in Ha as ->.
      split_and!; eauto; done.
  - exists AttributeError. split_and!; eauto; done.
Qed.

End LoginEndpoint.


(** ** Registration *)

Section Registration.
Context {PB : PasslibBackend}.

Lemma query_filter_email_first_app_None (db : Session) (u : UserModel.t) v :
  query_filter_email_first db v = None ->
  query_filter_email_first (db ++ [u])%list v
  = if bool_decide (JStr (UserModel.email u) = v) then Some u else None.
Proof.
  unfold query_filter_email_first. induction db as [|u' db IH]; simpl.
  - done.
  - destruct (bool_decide (JStr (UserModel.email u') = v)); [done|]. exact IH.
Qed.

Lemma query_filter_email_first_app_other (db : Session) (u : UserModel.t) v :
  v <> JStr (UserModel.email u) ->
  query_filter_email_first (db ++ [u])%list v = query_filter_email_first db v.
Proof.
  intros Hne. unfold query_filter_email_first.
  induction db as [|u' db IH]; simpl.
  - by rewrite bool_decide_eq_false_2.
  - by destruct (bool_decide (JStr (UserModel.email u') = v)).
Qed.

(** What [register_user] returns and stores, case by case. *)
Lemma register_user_cases db user salt new_id created_at :
  let r := register_user db user salt new_id created_at in
  (r = (Raise (HTTPException 409 "Usuario ya existe" []), db) /\
   exists u, u ∈ db /\ UserModel.email u = UserCreate.email user) \/
  (r = (Raise ValueError, db) /\
   secret_ok (UserCreate.password user) = false /\
   forall u, u ∈ db -> UserModel.email u <> UserCreate.email user) \/
  (exists hashed_password,
     let db_user := {|
       UserModel.id := new_id;
       UserModel.name := UserCreate.name user;
       UserModel.email := UserCreate.email user;
       UserModel.hashed_password := hashed_password;
       UserModel.age := UserCreate.age user;
       UserModel.is_active := true;
       UserModel.created_at := Some created_at;
       UserModel.updated_at := None |} in
     r = (Ret db_user, (db ++ [db_user])%list) /\
     get_password_hash salt (UserCreate.password user) = Ret hashed_password /\
     secret_ok (UserCreate.password user) = true /\
     forall u, u ∈ db -> UserModel.email u <> UserCreate.email user).
Proof.
  unfold register_user. simpl.
  destruct (query_filter_email_first db (JStr (UserCreate.email user)))
    as [u|] eqn:Hq.
  - left. split; [done|]. exists u.
    by apply query_filter_email_first_Some.
  - right. pose proof (proj1 (query_filter_email_first_None _ _) Hq) as Hfresh.
    unfold get_password_hash, pwd_context_hash.
    destruct (secret_ok (UserCreate.password user)) eqn:Hok.
    + right. by eexists.
    + by left.
Qed.

(** X11. Registration is refused with the 409 "Usuario ya existe" when a
    row of the store has the email of the request, and the store is left
    as it was. *)
Theorem register_user_duplicate_email
    (db : Session) (user : UserCreate.t) (salt : string)
    (new_id created_at : Z) (existing : UserModel.t) :
  existing ∈ db ->
  UserModel.email existing = UserCreate.email user ->
  register_user db user salt new_id created_at
  = (Raise (HTTPException 409 "Usuario ya existe" []), db).
Proof.
  intros Hin He.
  destruct (register_user_cases db user salt new_id created_at)
    as [[Hr _]|[(_ & _ & Hfresh)|(hp & _ & _ & _ & Hfresh)]];
    [done| |]; by destruct (Hfresh existing Hin).
Qed.

(** X12. A registration with a new email and a password that the hasher
    accepts appends one row to the store: it has the name, the email and
    the age of the request and the id the database assigned, it is
    active whatever [is_active] the request carries, and the password
    of the request verifies against the hash it stores. *)
Theorem register_user_creates_account
    (db : Session) (user : UserCreate.t) (salt : string)
    (new_id created_at : Z) :
  (forall u, u ∈ db -> UserModel.email u <> UserCreate.email user) ->
  secret_ok (UserCreate.password user) = true ->
  exists db_user,
    register_user db user salt new_id created_at
    = (Ret db_user, (db ++ [db_user])%list) /\
    UserModel.id db_user = new_id /\
    UserModel.name db_user = UserCreate.name user /\
    UserModel.email db_user = UserCreate.email user /\
    UserModel.age db_user = UserCreate.age user /\
    UserModel.is_active db_user = true /\
    verify_password (UserCreate.password user)
                    (UserModel.hashed_password db_user) = Ret true.
Proof.
  intros Hfresh Hok.
  destruct (register_user_cases db user salt new_id created_at)
    as [(_ & u & Hin & He)|[(_ & Hbad & _)|(hp & Hr & Hh & _ & _)]].
  - by destruct (Hfresh u Hin).
  - congruence.
  - eexists. split; [exact Hr|]. simpl. split_and!; try done.
    destruct (verify_password_hashed salt _ _ Hok Hok) as (hp' & Hh' & Hv).
    rewrite Hh in Hh'. injection Hh' as <-.
    by rewrite Hv, String.eqb_refl.
Qed.

(** X13. [register_user] keeps the emails of the store unique, and it
    never changes or removes a row: the store after the call is the
    store before it, followed by at most one new row, and by none when
    the call raises. *)
Theorem register_user_keeps_unique_emails
    (db : Session) (user : UserCreate.t) (salt : string)
    (new_id created_at : Z) :
  NoDup (UserModel.email <$> db) ->
  NoDup (UserModel.email <$> (register_user db user salt new_id created_at).2)
  /\ db `prefix_of` (register_user db user salt new_id created_at).2
  /\ (forall e, (register_user db user salt new_id created_at).1 = Raise e ->
        (register_user db user salt new_id created_at).2 = db).
Proof.
  intros Hnd.
  destruct (register_user_cases db user salt new_id created_at)
    as [[Hr _]|[(Hr & _)|(hp & Hr & _ & _ & Hfresh)]];
    simpl in Hr; rewrite Hr; simpl.
  - done.
  - done.
  - split_and!; [|by eexists|done].
    rewrite fmap_app. simpl. apply NoDup_app. split_and!.
    + done.
    + intros e He ->%list_elem_of_singleton.
      apply list_elem_of_fmap in He as (u & Heq & Hu).
      by destruct (Hfresh u Hu).
    + apply NoDup_singleton.
Qed.

(** The account of a registration authenticates. *)
Lemma register_user_authenticates
    (db : Session) (user : UserCreate.t) (salt : string)
    (new_id created_at : Z) (db_user : UserModel.t) (db' : Session) :
  register_user db user salt new_id created_at = (Ret db_user, db') ->
  authenticate_user db' (UserCreate.email user) (UserCreate.password user)
  = Ret (Some db_user).
Proof.
  intros Hreg.
  destruct (register_user_cases db user salt new_id created_at)
    as [[Hr _]|[(Hr & _)|(hp & Hr & Hh & Hok & Hfresh)]];
    simpl in Hr; rewrite Hr in Hreg; [done|done|].
  injection Hreg as <- <-.
  unfold authenticate_user.
  rewrite query_filter_email_first_app_None
    by by apply query_filter_email_first_None.
  simpl. rewrite bool_decide_eq_true_2 by done. simpl.
  destruct (verify_password_hashed salt _ _ Hok Hok) as (hp' & Hh' & Hv).
  rewrite Hh in Hh'. injection Hh' as <-.
  by rewrite Hv, String.eqb_refl.
Qed.

(** X14. Register, then authenticate: after a successful registration
    [authenticate_user] with the email and the password of the request
    returns the account that was created. *)
Theorem register_then_authenticate
    (db : Session) (user : UserCreate.t) (salt : string)
    (new_id created_at : Z) (db_user : UserModel.t) (db' : Session) :
  register_user db user salt new_id created_at = (Ret db_user, db') ->
  authenticate_user db' (UserCreate.email user) (UserCreate.password user)
  = Ret (Some db_user).
Proof. apply register_user_authenticates. Qed.

(** X15. A registration does not touch the other accounts: for every
    email other than the one of the request, [authenticate_user] and the
    lookup of [get_current_user] give after the call what they gave
    before it. *)
Theorem register_user_frame
    (db : Session) (user : UserCreate.t) (salt : string)
    (new_id created_at : Z) (email password : string) :
  email <> UserCreate.email user ->
  authenticate_user (register_user db user salt new_id created_at).2
                    email password
  = authenticate_user db email password /\
  get_user_by_email (register_user db user salt new_id created_at).2
                    (JStr email)
  = get_user_by_email db (JStr email).
Proof.
  intros Hne.
  assert (query_filter_email_first
            (register_user db user salt new_id created_at).2 (JStr email)
          = query_filter_email_first db (JStr email)) as Hq.
  { destruct (register_user_cases db user salt new_id created_at)
      as [[Hr _]|[(Hr & _)|(hp & Hr & _)]];
      simpl in Hr; rewrite Hr; simpl; [done|done|].
    apply query_filter_email_first_app_other. simpl. congruence. }
  unfold authenticate_user, get_user_by_email. by rewrite Hq.
Qed.

End Registration.

(** ** The user listing *)

Section ListingProperties.
Variable ilike : string -> string -> bool.

(** The rows that [get_users] pages through. *)
Definition matching_users (search : option string) (db : Session)
    : Session :=
  if optional_str_bool search
  then
    let search_term := "%" +:+ default "" search +:+ "%" in
    List.filter (fun u => ilike (UserModel.name u) search_term
                          || ilike (UserModel.email u) search_term) db
  else db.

Lemma filter_sublist {A} (f : A -> bool) (l : list A) :
  List.filter f l `sublist_of` l.
Proof.
  induction l as [|x l IH]; simpl; [constructor|].
  destruct (f x); by constructor.
Qed.


Lemma get_users_unfold commons db current_user :
  get_users ilike commons db current_user =
  match take (Commons.limit commons)
             (drop (Commons.skip commons)
                   (matching_users (Commons.search commons) db)) with
  | [] => Raise (HTTPException 404 "No se encontraron usuarios" [])
  | users => Ret users
  end.
Proof.
  unfold get_users, matching_users.
  destruct (optional_str_bool _); simpl; by destruct (take _ _).
Qed.


(** X18. Pages follow each other: when the page at [skip] with limit
    [l1] exists, the page at [skip] with limit [l1 + l2] is that page
    followed by the page at [skip + l1] with limit [l2], or by nothing
    when the latter raises the 404. *)
Theorem get_users_pages_compose
    (skip l1 l2 : nat) (search : option string) (db : Session)
    (current_user : UserModel.t) (page1 : list UserModel.t) :
  get_users ilike (common_parameters skip l1 search) db current_user
  = Ret page1 ->
  get_users ilike (common_parameters skip (l1 + l2) search) db current_user
  = Ret (page1 ++
         match get_users ilike (common_parameters (skip + l1) l2 search)
                         db current_user with
         | Ret page2 => page2
         | Raise _ => []
         end)%list.
Proof.
  rewrite !get_users_unfold. simpl.
  set (m := matching_users search db).
  rewrite <- (take_take_drop (drop skip m) l1 l2), drop_drop.
  destruct (take l1 (drop skip m)) as [|u p1]; [done|].
  intros [= <-].
  by destruct (take l2 (drop (skip + l1) m)).
Qed.

End ListingProperties.

(** ** Exceptions of the hasher in the login path *)

Section HasherExceptions.
Context {JB : JoseBackend} {PB : PasslibBackend}.

(** X19. [authenticate_user] does not catch what [verify_password]
    raises.  For the email of an account whose stored hash is no bcrypt
    hash, or with a password that passlib rejects (a NUL byte, more than
    4096 bytes), it raises [ValueError], and [login_user] on the same
    [Session] raises it too; for an email that no account has, the same
    password gives [None], and [login_user] the [TypeError] of its
    [await]. *)
Theorem authenticate_user_hasher_exception
    (h : heap) (db : Session) (known_email unknown_email password : string)
    (user : UserModel.t) (now : Z) :
  query_filter_email_first db (JStr known_email) = Some user ->
  (forall u, u ∈ db -> UserModel.email u <> unknown_email) ->
  bcrypt_from_string (UserModel.hashed_password user) = None \/
  secret_ok password = false ->
  authenticate_user db known_email password = Raise ValueError /\
  login_user h (SyncSession db) known_email password now
  = (Raise ValueError, h) /\
  authenticate_user db unknown_email password = Ret None /\
  login_user h (SyncSession db) unknown_email password now
  = (Raise TypeError, h).
Proof.
  intros Hknown Hunknown%query_filter_email_first_None Hbad.
  assert (verify_password password (UserModel.hashed_password user)
          = Raise ValueError) as Hv.
  { unfold verify_password, pwd_context_verify.
    destruct Hbad as [-> | Hs]; [done|].
    destruct (bcrypt_from_string _) as [[salt chk]|]; [|done].
    by rewrite Hs. }
  unfold login_user, authenticate_user. simpl.
  by rewrite Hknown, Hunknown, Hv.
Qed.

End HasherExceptions.


(** ** The item endpoints of [app/main.py] *)

Section ItemProperties.
Context {PF : PyFloat}.

(** The key under which [create_item] looks for an existing item. *)
Definition owner_and_name (i : ItemModel.t) : Z * string :=
  (ItemModel.owner_id i, ItemModel.name i).

Lemma create_item_cases items item current_user new_id created_at :
  let db_item := {|
    ItemModel.id := new_id;
    ItemModel.name := ItemCreate.name item;
    ItemModel.description := ItemCreate.description item;
    ItemModel.price := ItemCreate.price item;
    ItemModel.tax := ItemCreate.tax item;
    ItemModel.created_at := Some created_at;
    ItemModel.updated_at := None;
    ItemModel.owner_id := UserModel.id current_user |} in
  (create_item items item current_user new_id created_at
   = (Raise (HTTPException 409 "Ya tienes un item con este nombre" []), items)
   /\ exists i, i ∈ items /\ owner_and_name i = owner_and_name db_item) \/
  (create_item items item current_user new_id created_at
   = (Ret (from_orm_with_total db_item), (items ++ [db_item])%list)
   /\ forall i, i ∈ items -> owner_and_name i <> owner_and_name db_item).
Proof.
  unfold create_item, owner_and_name. simpl.
  destruct (List.find _ items) as [i|] eqn:Hf.
  - left. split; [done|]. apply List.find_some in Hf as [Hin Hi].
    apply andb_true_iff in Hi as [Hn%String.eqb_eq Ho%Z.eqb_eq].
    exists i. split; [by apply list_elem_of_In|]. by rewrite Hn, Ho.
  - right. split; [done|]. intros i Hin%list_elem_of_In [= Ho Hn].
    apply (List.find_none _ _ Hf) in Hin.
    rewrite Hn, Ho, String.eqb_refl, Z.eqb_refl in Hin. done.
Qed.

(** X20. [create_item] raises the 409 "Ya tienes un item con este
    nombre", and leaves the table as it was, exactly when the current
    user owns an item of that name; an item of the same name owned by
    someone else is no obstacle.  Otherwise it appends one row, owned by
    the current user, with the fields of the request and the id the
    database assigned, and answers with that row and its total price. *)
Theorem create_item_outcome
    (items : list ItemModel.t) (item : ItemCreate.t)
    (current_user : UserModel.t) (new_id created_at : Z) :
  match create_item items item current_user new_id created_at with
  | (Raise e, items') =>
      e = HTTPException 409 "Ya tienes un item con este nombre" [] /\
      items' = items /\
      exists i, i ∈ items /\
                ItemModel.owner_id i = UserModel.id current_user /\
                ItemModel.name i = ItemCreate.name item
  | (Ret response, items') =>
      (forall i, i ∈ items ->
                 ItemModel.owner_id i = UserModel.id current_user ->
                 ItemModel.name i <> ItemCreate.name item) /\
      exists db_item,
        items' = (items ++ [db_item])%list /\
        response = from_orm_with_total db_item /\
        ItemModel.id db_item = new_id /\
        ItemModel.owner_id db_item = UserModel.id current_user /\
        ItemModel.name db_item = ItemCreate.name item /\
        ItemModel.description db_item = ItemCreate.description item /\
        ItemModel.price db_item = ItemCreate.price item /\
        ItemModel.tax db_item = ItemCreate.tax item /\
        ItemResponse.id response = new_id /\
        ItemResponse.owner_id response = UserModel.id current_user /\
        ItemResponse.total_price response
        = price_with_tax (ItemCreate.price item) (ItemCreate.tax item)
  end.
Proof.
  destruct (create_item_cases items item current_user new_id created_at)
    as [(-> & i & Hin & Hk)|(-> & Hfresh)].
  - split_and!; [done|done|]. exists i. injection Hk as Ho Hn. done.
  - split.
    + intros i Hin Ho Hn. apply (Hfresh i Hin).
      unfold owner_and_name. simpl. by rewrite Ho, Hn.
    + eexists. split_and!; done.
Qed.

(** X21. [create_item] keeps the names of the items of each owner
    distinct: when no two rows of the table have the same owner and the
    same name, the same holds after the call. *)
Theorem create_item_keeps_names_unique
    (items : list ItemModel.t) (item : ItemCreate.t)
    (current_user : UserModel.t) (new_id created_at : Z) :
  NoDup (owner_and_name <$> items) ->
  NoDup (owner_and_name <$>
           (create_item items item current_user new_id created_at).2).
Proof.
  intros Hnd.
  destruct (create_item_cases items item current_user new_id created_at)
    as [(-> & _)|(-> & Hfresh)]; simpl; [done|].
  rewrite fmap_app. apply NoDup_app. split_and!; [done| |apply NoDup_singleton].
  intros k Hk ->%list_elem_of_singleton.
  apply list_elem_of_fmap in Hk as (i & Heq & Hin).
  by apply (Hfresh i Hin).
Qed.

(** X22. After a [create_item] that succeeded, [get_my_stats] counts one
    item more for the user who created it and the same number as before
    for every other user. *)
Theorem create_item_then_my_stats
    (items : list ItemModel.t) (item : ItemCreate.t)
    (current_user : UserModel.t) (new_id created_at : Z)
    (response : ItemResponse.t) (items' : list ItemModel.t) :
  create_item items item current_user new_id created_at
  = (Ret response, items') ->
  MyStats.my_items_count (get_my_stats items' current_user)
  = S (MyStats.my_items_count (get_my_stats items current_user)) /\
  forall other,
    UserModel.id other <> UserModel.id current_user ->
    MyStats.my_items_count (get_my_stats items' other)
    = MyStats.my_items_count (get_my_stats items other).
Proof.
  intros Hc.
  destruct (create_item_cases items item current_user new_id created_at)
    as [(Hr & _)|(Hr & _)]; rewrite Hr in Hc; [done|].
  injection Hc as _ <-. unfold get_my_stats. simpl. split.
  - rewrite List.filter_app, length_app. simpl.
    rewrite Z.eqb_refl. simpl. lia.
  - intros other Hne. rewrite List.filter_app, length_app. simpl.
    rewrite (proj2 (Z.eqb_neq _ _)) by done. simpl. lia.
Qed.

End ItemProperties.

(** ** The item service of [main.py] *)

Section MainService.
Context {PF : PyFloat} {PS : PyStr}.

(** X23. The role check of the administrative endpoints never fails.
    [validate_api_key] returns a token only when the credentials carry
    "mi-api-key-secreta", and the user that [get_current_user] returns,
    whatever the token, has the role "admin": for that user [get_logs]
    returns its page of the log (never more than [limit] entries) and
    [get_stats] the three counts, and neither raises the 403. *)
Theorem admin_role_check_never_fails
    (token : string) (commons : Commons.t) (st : Main.state) :
  let current_user := Main.get_current_user token in
  (forall credentials token',
     Main.validate_api_key credentials = Ret token' ->
     credentials = Some "mi-api-key-secreta" /\
     token' = "mi-api-key-secreta") /\
  Main.CurrentUser.role current_user = "admin" /\
  (exists page,
     Main.get_logs current_user commons st = Ret page /\
     Main.LogsPage.total_logs page = length (Main.request_logs st) /\
     Main.LogsPage.logs page
     = take (Commons.limit commons)
            (drop (Commons.skip commons) (Main.request_logs st)) /\
     Main.LogsPage.returned page = length (Main.LogsPage.logs page) /\
     (Main.LogsPage.returned page <= Commons.limit commons)%nat /\
     (Main.LogsPage.returned page <= Main.LogsPage.total_logs page)%nat) /\
  Main.get_stats current_user st
  = Ret {| Main.Stats.total_items := length (Main.fake_items_db st);
           Main.Stats.total_users := length (Main.fake_users_db st);
           Main.Stats.total_requests := length (Main.request_logs st);
           Main.Stats.current_user := "Usuario Demo" |} /\
  Main.get_logs current_user commons st <> Raise Main.admin_exception /\
  Main.get_stats current_user st <> Raise Main.admin_exception.
Proof.
  simpl. split_and!; try done.
  - intros credentials token'. unfold Main.validate_api_key.
    destruct credentials as [t|]; [|done].
    destruct (String.eqb_spec t "mi-api-key-secreta") as [->|]; simpl;
      [|done].
    by intros [= <-].
  - eexists. split; [reflexivity|]. simpl. split_and!; try done.
    + rewrite length_take. lia.
    + rewrite length_take, length_drop. lia.
Qed.

(** The table and the log that [create_item] leaves, case by case. *)
Lemma main_create_item_cases validated_item current_user logger now st :
  let st1 := Main.create_log logger "POST" "/items/" st in
  let item_response := {|
    Main.ItemResponse.id := Z.of_nat (length (Main.fake_items_db st)) + 1;
    Main.ItemResponse.name := Main.Item.name validated_item;
    Main.ItemResponse.description := Main.Item.description validated_item;
    Main.ItemResponse.price := Main.Item.price validated_item;
    Main.ItemResponse.tax := Main.Item.tax validated_item;
    Main.ItemResponse.total_price := Main.total_price_of validated_item;
    Main.ItemResponse.created_at := now |} in
  (Main.create_item validated_item current_user logger now st
   = (Raise (HTTPException 409
               ("Ya existe un item con el nombre '"
                +:+ Main.Item.name validated_item +:+ "'") []), st1) /\
   exists existing,
     existing ∈ Main.fake_items_db st /\
     str_lower (Main.ItemResponse.name existing)
     = str_lower (Main.Item.name validated_item)) \/
  (Main.create_item validated_item current_user logger now st
   = (Ret item_response,
      {| Main.fake_items_db :=
           (Main.fake_items_db st ++ [item_response])%list;
         Main.fake_users_db := Main.fake_users_db st;
         Main.request_logs := Main.request_logs st1 |}) /\
   forall existing,
     existing ∈ Main.fake_items_db st ->
     str_lower (Main.ItemResponse.name existing)
     <> str_lower (Main.Item.name validated_item)).
Proof.
  unfold Main.create_item. simpl.
  destruct (List.find _ (Main.fake_items_db st)) as [existing|] eqn:Hf.
  - left. split; [done|]. apply List.find_some in Hf as [Hin He].
    exists existing. split; [by apply list_elem_of_In|].
    by apply String.eqb_eq.
  - right. split; [done|]. intros existing Hin%list_elem_of_In He.
    apply (List.find_none _ _ Hf) in Hin.
    by rewrite He, String.eqb_refl in Hin.
Qed.

(** X24. [create_item] of [main.py] raises the 409 exactly when an item
    of the list has the same name up to [lower()], and then leaves the
    list as it was.  Otherwise it appends one item and returns it: its
    id is the length of the list plus one, its fields are those of the
    request, its total price is the price with tax, and its
    [created_at] is the clock reading. *)
Theorem main_create_item_outcome
    (validated_item : Main.Item.t) (current_user : Main.CurrentUser.t)
    (logger : Main.Logger) (now : Z) (st : Main.state) :
  match Main.create_item validated_item current_user logger now st with
  | (Raise e, st') =>
      e = HTTPException 409
            ("Ya existe un item con el nombre '"
             +:+ Main.Item.name validated_item +:+ "'") [] /\
      Main.fake_items_db st' = Main.fake_items_db st /\
      exists existing,
        existing ∈ Main.fake_items_db st /\
        str_lower (Main.ItemResponse.name existing)
        = str_lower (Main.Item.name validated_item)
  | (Ret item_response, st') =>
      (forall existing,
         existing ∈ Main.fake_items_db st ->
         str_lower (Main.ItemResponse.name existing)
         <> str_lower (Main.Item.name validated_item)) /\
      Main.fake_items_db st'
      = (Main.fake_items_db st ++ [item_response])%list /\
      Main.ItemResponse.id item_response
      = Z.of_nat (length (Main.fake_items_db st)) + 1 /\
      Main.ItemResponse.name item_response = Main.Item.name validated_item /\
      Main.ItemResponse.description item_response
      = Main.Item.description validated_item /\
      Main.ItemResponse.price item_response = Main.Item.price validated_item /\
      Main.ItemResponse.tax item_response = Main.Item.tax validated_item /\
      Main.ItemResponse.total_price item_response
      = price_with_tax (Main.Item.price validated_item)
                       (Main.Item.tax validated_item) /\
      Main.ItemResponse.created_at item_response = now
  end.
Proof.
  destruct (main_create_item_cases validated_item current_user logger now st)
    as [(-> & Hex)|(-> & Hfresh)]; simpl.
  - done.
  - split_and!; done.
Qed.

(** X25. Two invariants of [create_item]: it keeps the names of the
    list distinct up to [lower()], and while the ids of the list are
    1, 2, ..., n in this order (so while nothing has been deleted) it
    keeps them so, hence distinct. *)
Theorem main_create_item_invariants
    (validated_item : Main.Item.t) (current_user : Main.CurrentUser.t)
    (logger : Main.Logger) (now : Z) (st : Main.state) :
  let items := Main.fake_items_db st in
  let items' :=
    Main.fake_items_db
      (Main.create_item validated_item current_user logger now st).2 in
  (NoDup ((fun i => str_lower (Main.ItemResponse.name i)) <$> items) ->
   NoDup ((fun i => str_lower (Main.ItemResponse.name i)) <$> items')) /\
  (Main.ItemResponse.id <$> items = seqZ 1 (Z.of_nat (length items)) ->
   Main.ItemResponse.id <$> items' = seqZ 1 (Z.of_nat (length items')) /\
   NoDup (Main.ItemResponse.id <$> items')).
Proof.
  simpl.
  destruct (main_create_item_cases validated_item current_user logger now st)
    as [(-> & Hex)|(-> & Hfresh)]; simpl.
  - split; [done|]. intros Hd. split; [done|]. rewrite Hd. apply NoDup_seqZ.
  - split.
    + intros Hnd. rewrite fmap_app. apply NoDup_app.
      split_and!; [done| |apply NoDup_singleton].
      intros n Hn ->%list_elem_of_singleton.
      apply list_elem_of_fmap in Hn as (i & Heq & Hin).
      by apply (Hfresh i Hin).
    + intros Hd.
      assert (Main.ItemResponse.id <$>
                (Main.fake_items_db st ++
                 [{| Main.ItemResponse.id :=
                       Z.of_nat (length (Main.fake_items_db st)) + 1;
                     Main.ItemResponse.name := Main.Item.name validated_item;
                     Main.ItemResponse.description :=
                       Main.Item.description validated_item;
                     Main.ItemResponse.price := Main.Item.price validated_item;
                     Main.ItemResponse.tax := Main.Item.tax validated_item;
                     Main.ItemResponse.total_price :=
                       Main.total_price_of validated_item;
                     Main.ItemResponse.created_at := now |}])%list
              = seqZ 1 (Z.of_nat (length (Main.fake_items_db st)) + 1)) as Hd'.
      { rewrite fmap_app, Hd. simpl. rewrite seqZ_app by lia.
        f_equal. rewrite seqZ_cons by lia. rewrite seqZ_nil by lia.
        f_equal. lia. }
      split.
      * rewrite Hd', length_app. simpl. f_equal. lia.
      * rewrite Hd'. apply NoDup_seqZ.
Qed.

End MainService.

Section MainItems.
Context {PF : PyFloat} {PS : PyStr}.

Lemma find_first {A} (f : A -> bool) (l : list A) (i : nat) (x : A) :
  l !! i = Some x -> f x = true ->
  (forall j y, l !! j = Some y -> (j < i)%nat -> f y = false) ->
  List.find f l = Some x.
Proof.
  revert i. induction l as [|a l IH]; intros i Hi Hx Hbefore; [done|].
  destruct i as [|i]; simpl in *.
  - injection Hi as ->. by rewrite Hx.
  - rewrite (Hbefore 0%nat a) by (done || lia).
    apply (IH i); [done|done|].
    intros j y Hj Hlt. apply (Hbefore (S j) y); [done|lia].
Qed.

(** The outcome of the search for [item_id] that [update_item] and
    [delete_item] start with. *)
Lemma main_list_find_id (items : list Main.ItemResponse.t) (item_id : Z) :
  match list_find (fun item => Main.ItemResponse.id item = item_id) items with
  | Some (i, item) =>
      items !! i = Some item /\ Main.ItemResponse.id item = item_id /\
      forall j y, items !! j = Some y -> (j < i)%nat ->
                  Main.ItemResponse.id y <> item_id
  | None => forall y, y ∈ items -> Main.ItemResponse.id y <> item_id
  end.
Proof.
  destruct (list_find _ items) as [[i item]|] eqn:Hf.
  - by apply list_find_Some in Hf.
  - apply list_find_None in Hf. intros y Hy.
    by apply (proj1 (Forall_forall _ _) Hf).
Qed.

(** X26. [delete_item] refuses an id that is not positive with the 400
    and an id that no item has with the 404, and leaves the list as it
    was.  Otherwise it removes one item, the first one with that id, and
    keeps the others in their order; where ids are distinct no item with
    that id is left, and [get_item] for it then answers 404. *)
Theorem main_delete_item_outcome
    (item_id : Z) (current_user : Main.CurrentUser.t)
    (logger logger' : Main.Logger) (st : Main.state) :
  let items := Main.fake_items_db st in
  match Main.delete_item item_id current_user logger st with
  | (Ret _, st') =>
      0 < item_id /\
      (exists i item,
         items !! i = Some item /\
         Main.ItemResponse.id item = item_id /\
         (forall j y, items !! j = Some y -> (j < i)%nat ->
                      Main.ItemResponse.id y <> item_id) /\
         Main.fake_items_db st' = delete i items) /\
      S (length (Main.fake_items_db st')) = length items /\
      Main.fake_items_db st' `sublist_of` items /\
      (NoDup (Main.ItemResponse.id <$> items) ->
       (forall y, y ∈ Main.fake_items_db st' ->
                  Main.ItemResponse.id y <> item_id) /\
       (Main.get_item item_id logger' st').1
       = Raise (Main.not_found item_id))
  | (Raise e, st') =>
      Main.fake_items_db st' = items /\
      ((item_id <= 0 /\ e = Main.id_exception) \/
       (0 < item_id /\ e = Main.not_found item_id /\
        forall y, y ∈ items -> Main.ItemResponse.id y <> item_id))
  end.
Proof.
  simpl. unfold Main.delete_item. simpl.
  destruct (Z.leb_spec item_id 0) as [Hle|Hpos]; [by split; [|left]|].
  pose proof (main_list_find_id (Main.fake_items_db st) item_id) as Hfind.
  destruct (list_find _ (Main.fake_items_db st)) as [[i item]|]; simpl.
  - destruct Hfind as (Hi & Hid & Hfirst).
    assert (i < length (Main.fake_items_db st))%nat as Hlt
      by by eapply lookup_lt_Some.
    split_and!.
    + done.
    + by exists i, item.
    + rewrite length_delete by by eexists. lia.
    + apply sublist_delete.
    + intros Hnd.
      assert (forall y, y ∈ delete i (Main.fake_items_db st) ->
                        Main.ItemResponse.id y <> item_id) as Hgone.
      { intros y Hy Hidy.
        apply list_elem_of_lookup in Hy as [j Hj].
        assert (exists k, k <> i /\ Main.fake_items_db st !! k = Some y)
          as (k & Hk & Hky).
        { destruct (decide (j < i)%nat).
          - exists j. split; [lia|]. by rewrite list_lookup_delete_lt in Hj.
          - exists (S j). split; [lia|].
            by rewrite list_lookup_delete_ge in Hj by lia. }
        apply Hk. eapply NoDup_lookup; [exact Hnd| |].
        - rewrite list_lookup_fmap, Hky. simpl. by rewrite Hidy.
        - rewrite list_lookup_fmap, Hi. simpl. by rewrite Hid. }
      split; [done|].
      unfold Main.get_item. simpl.
      rewrite (proj2 (Z.leb_gt _ _)) by done.
      destruct (List.find _ _) as [y|] eqn:Hf; [|done].
      apply List.find_some in Hf as [Hin Hy%Z.eqb_eq].
      by destruct (Hgone y (proj2 (list_elem_of_In _ _) Hin)).
  - split; [done|]. right. done.
Qed.

(** X27. [update_item] refuses an id that is not positive with the 400
    and an id that no item has with the 404, and leaves the list as it
    was.  Otherwise it replaces the first item with that id, in place:
    the list keeps its length and its ids, the new item has the id and
    the [created_at] of the old one and the fields of the request, and
    [get_item] for the id then returns the new item. *)
Theorem main_update_item_outcome
    (item_id : Z) (validated_item : Main.Item.t)
    (current_user : Main.CurrentUser.t) (logger logger' : Main.Logger)
    (st : Main.state) :
  let items := Main.fake_items_db st in
  match Main.update_item item_id validated_item current_user logger st with
  | (Ret updated_item, st') =>
      0 < item_id /\
      (exists i old,
         items !! i = Some old /\
         Main.ItemResponse.id old = item_id /\
         Main.fake_items_db st' = <[i := updated_item]> items /\
         Main.ItemResponse.created_at updated_item
         = Main.ItemResponse.created_at old) /\
      Main.ItemResponse.id updated_item = item_id /\
      Main.ItemResponse.name updated_item = Main.Item.name validated_item /\
      Main.ItemResponse.price updated_item = Main.Item.price validated_item /\
      Main.ItemResponse.tax updated_item = Main.Item.tax validated_item /\
      Main.ItemResponse.total_price updated_item
      = price_with_tax (Main.Item.price validated_item)
                       (Main.Item.tax validated_item) /\
      length (Main.fake_items_db st') = length items /\
      Main.ItemResponse.id <$> Main.fake_items_db st'
      = Main.ItemResponse.id <$> items /\
      (Main.get_item item_id logger' st').1 = Ret updated_item
  | (Raise e, st') =>
      Main.fake_items_db st' = items /\
      ((item_id <= 0 /\ e = Main.id_exception) \/
       (0 < item_id /\ e = Main.not_found item_id /\
        forall y, y ∈ items -> Main.ItemResponse.id y <> item_id))
  end.
Proof.
  simpl. unfold Main.update_item. simpl.
  destruct (Z.leb_spec item_id 0) as [Hle|Hpos]; [by split; [|left]|].
  pose proof (main_list_find_id (Main.fake_items_db st) item_id) as Hfind.
  destruct (list_find _ (Main.fake_items_db st)) as [[i old]|]; simpl.
  - destruct Hfind as (Hi & Hid & Hfirst).
    assert (i < length (Main.fake_items_db st))%nat as Hlt
      by by eapply lookup_lt_Some.
    split_and!; try done.
    + by exists i, old.
    + apply length_insert.
    + rewrite list_fmap_insert. simpl. apply list_insert_id.
      rewrite list_lookup_fmap, Hi. simpl. by rewrite Hid.
    + unfold Main.get_item. simpl.
      rewrite (proj2 (Z.leb_gt _ _)) by done.
      erewrite (find_first _ _ i); [done| | |].
      * by apply list_lookup_insert_eq.
      * simpl. apply Z.eqb_refl.
      * intros j y Hj Hji. rewrite list_lookup_insert_ne in Hj by lia.
        apply Z.eqb_neq. by eapply Hfirst.
  - split; [done|]. right. done.
Qed.

(** X28. Ids are reused after a deletion.  When the ids of the list are
    1, ..., n and an item other than the last is deleted, the next item
    that [create_item] appends gets the id n, which the last item of the
    list already has: the ids are no longer distinct. *)
Theorem main_delete_then_create_reuses_id
    (item_id : Z) (new_item : Main.Item.t)
    (current_user : Main.CurrentUser.t) (logger1 logger2 : Main.Logger)
    (now : Z) (st : Main.state) :
  let items := Main.fake_items_db st in
  Main.ItemResponse.id <$> items = seqZ 1 (Z.of_nat (length items)) ->
  0 < item_id < Z.of_nat (length items) ->
  (forall existing, existing ∈ items ->
     str_lower (Main.ItemResponse.name existing)
     <> str_lower (Main.Item.name new_item)) ->
  exists st1 st2 item_response other,
    Main.delete_item item_id current_user logger1 st = (Ret tt, st1) /\
    Main.create_item new_item current_user logger2 now st1
    = (Ret item_response, st2) /\
    Main.ItemResponse.id item_response = Z.of_nat (length items) /\
    other ∈ Main.fake_items_db st1 /\
    Main.ItemResponse.id other = Main.ItemResponse.id item_response /\
    ~ NoDup (Main.ItemResponse.id <$> Main.fake_items_db st2).
Proof.
  simpl. intros Hdense [Hpos Hlt] Hfresh.
  set (items := Main.fake_items_db st) in *.
  set (n := length items) in *.
  assert (forall k x, items !! k = Some x ->
                      Main.ItemResponse.id x = 1 + Z.of_nat k) as Hidx.
  { intros k x Hk.
    assert ((Main.ItemResponse.id <$> items) !! k
            = Some (Main.ItemResponse.id x)) as Hl
      by by rewrite list_lookup_fmap, Hk.
    rewrite Hdense, lookup_seqZ_lt in Hl; [by injection Hl|].
    apply lookup_lt_Some in Hk. unfold n. lia. }
  unfold Main.delete_item. simpl. fold items.
  rewrite (proj2 (Z.leb_gt _ _)) by done.
  pose proof (main_list_find_id items item_id) as Hfind.
  destruct (list_find _ items) as [[i item]|].
  - destruct Hfind as (Hi & Hid & _).
    assert (Z.of_nat i = item_id - 1) as Hi' by (apply Hidx in Hi; lia).
    destruct (lookup_lt_is_Some_2 items (n - 1)%nat) as [last Hlast];
      [unfold n in *; lia|].
    assert (Main.ItemResponse.id last = Z.of_nat n) as Hlastid
      by (apply Hidx in Hlast; lia).
    assert (delete i items !! (n - 2)%nat = Some last) as Hkept.
    { rewrite list_lookup_delete_ge by lia.
      by replace (S (n - 2)) with (n - 1)%nat by lia. }
    assert (length (delete i items) = (n - 1)%nat) as Hlen.
    { rewrite length_delete by by eexists. unfold n. lia. }
    set (st1 := {| Main.fake_items_db := delete i items;
                   Main.fake_users_db := _; Main.request_logs := _ |}).
    destruct (main_create_item_cases new_item current_user logger2 now st1)
      as [(_ & existing & Hin & Heq)|(Hc & _)].
    + exfalso. apply (Hfresh existing); [|done].
      by apply (sublist_subseteq _ _ (sublist_delete items i)).
    + eexists st1, _, _, last. split; [done|]. split; [exact Hc|].
      simpl. rewrite Hlen.
      split_and!; [lia|by eapply list_elem_of_lookup_2|lia|].
      rewrite fmap_app. intros Hnd. apply NoDup_app in Hnd as (_ & Hnd & _).
      apply (Hnd (Z.of_nat n)).
      * apply list_elem_of_fmap. exists last.
        split; [done|by eapply list_elem_of_lookup_2].
      * simpl. apply list_elem_of_singleton. lia.
  - exfalso.
    destruct (lookup_lt_is_Some_2 items (Z.to_nat (item_id - 1)))
      as [x Hx]; [unfold n in *; lia|].
    apply (Hfind x); [by eapply list_elem_of_lookup_2|].
    apply Hidx in Hx. lia.
Qed.

End MainItems.

Section MainListing.
Context {PF : PyFloat} {PS : PyStr}.

Lemma prefix_app (sub s : string) :
  String.prefix sub s = true <-> exists post, s = sub +:+ post.
Proof.
  revert sub. induction s as [|b s IH]; intros sub.
  - destruct sub as [|a sub]; simpl.
    + split; [|done]. intros _. by exists EmptyString.
    + split; [done|]. by intros [post ?].
  - destruct sub as [|a sub]; simpl.
    + split; [|done]. intros _. by eexists.
    + destruct (ascii_dec a b) as [->|Hne].
      * rewrite IH. split; intros [post Hp]; exists post;
          [by rewrite Hp|by injection Hp].
      * split; [done|]. intros [post Hp]. by injection Hp.
Qed.

(** [str_contains sub s] is true exactly when [sub] occurs in [s]. *)
Lemma str_contains_spec (sub s : string) :
  str_contains sub s = true <-> exists pre post, s = pre +:+ sub +:+ post.
Proof.
  induction s as [|b s IH].
  - change (str_contains sub EmptyString)
      with (String.prefix sub EmptyString || false).
    rewrite orb_false_r, prefix_app. split.
    + intros [post Hp]. by exists EmptyString, post.
    + intros (pre & post & Hp). destruct pre; [by exists post|done].
  - change (str_contains sub (String b s))
      with (String.prefix sub (String b s) || str_contains sub s).
    rewrite orb_true_iff, prefix_app, IH. split.
    + intros [[post Hp]|(pre & post & Hp)].
      * by exists EmptyString, post.
      * exists (String b pre), post. simpl. by rewrite Hp.
    + intros (pre & post & Hp). destruct pre as [|c pre]; simpl in Hp.
      * left. by exists post.
      * right. injection Hp as _ Hp. by exists pre, post.
Qed.

(** X29. [get_items] of [main.py] changes no item.  Its page is never
    empty and never longer than [limit], and its items are items of the
    list in the order of the list; with a search that is not empty, the
    lowered search term occurs in the lowered name of every item of the
    page, or in its lowered description when it has one.  The 404 is
    raised exactly when the page would be empty. *)
Theorem main_get_items_page
    (commons : Commons.t) (logger : Main.Logger) (st : Main.state) :
  let items := Main.fake_items_db st in
  Main.fake_items_db (Main.get_items commons logger st).2 = items /\
  match (Main.get_items commons logger st).1 with
  | Ret page =>
      page <> [] /\
      (length page <= Commons.limit commons)%nat /\
      page `sublist_of` items /\
      match Commons.search commons with
      | None | Some "" =>
          page = take (Commons.limit commons)
                      (drop (Commons.skip commons) items)
      | Some search =>
          Forall
            (fun item =>
               (exists pre post,
                  str_lower (Main.ItemResponse.name item)
                  = pre +:+ str_lower search +:+ post) \/
               (exists d pre post,
                  Main.ItemResponse.description item = Some d /\
                  str_lower d = pre +:+ str_lower search +:+ post))
            page
      end
  | Raise e =>
      e = HTTPException 404 "No se encontraron items" [] /\
      (Commons.search commons = None \/ Commons.search commons = Some "" ->
       (length items <= Commons.skip commons)%nat \/
       Commons.limit commons = 0%nat)
  end.
Proof.
  simpl. unfold Main.get_items. simpl.
  set (items := Main.fake_items_db st).
  set (m := match Commons.search commons with
            | Some search =>
                if negb (String.eqb search "")
                then List.filter (Main.item_matches (str_lower search)) items
                else items
            | None => items
            end).
  assert (m `sublist_of` items) as Hm.
  { unfold m. destruct (Commons.search commons) as [search|]; [|done].
    destruct (negb _); [apply filter_sublist|done]. }
  destruct (take (Commons.limit commons) (drop (Commons.skip commons) m))
    as [|x page] eqn:Hpage; simpl.
  - split; [done|]. split; [done|]. intros Hs.
    assert (m = items) as Hmi.
    { unfold m. by destruct Hs as [-> | ->]. }
    rewrite Hmi in Hpage.
    apply take_nil_inv in Hpage as [Hl|Hd]; [by right|left].
    by apply drop_nil_inv.
  - split; [done|].
    assert (x :: page `sublist_of` m) as Hsub.
    { rewrite <- Hpage. etrans; [apply sublist_take|apply sublist_drop]. }
    split_and!.
    + done.
    + pose proof (f_equal length Hpage) as Hlen.
      rewrite length_take in Hlen. simpl in Hlen. lia.
    + by etrans.
    + subst m. destruct (Commons.search commons) as [[|a search]|];
        simpl in *; [done| |done].
      apply Forall_forall. intros y Hy.
      apply (sublist_subseteq _ _ Hsub) in Hy.
      apply list_elem_of_In, List.filter_In in Hy as [_ Hy].
      unfold Main.item_matches in Hy.
      apply orb_true_iff in Hy as [Hn|Hd].
      * left. by apply str_contains_spec.
      * right. destruct (Main.ItemResponse.description y) as [d|]; [|done].
        apply andb_true_iff in Hd as [_ Hd].
        exists d. apply str_contains_spec in Hd as (pre & post & Hd).
        by exists pre, post.
Qed.

(** The entry that [logger(method, path)] appends. *)
Definition log_entry_of (logger : Main.Logger) (method path : string)
    : Main.RequestLog.t :=
  {| Main.RequestLog.timestamp := Main.log_timestamp logger;
     Main.RequestLog.method := method;
     Main.RequestLog.path := path;
     Main.RequestLog.duration_ms := Main.log_duration_ms logger |}.

(** X30. Every call of [health_check], [get_items], [get_item],
    [create_item], [update_item] and [delete_item] appends one entry to
    [request_logs], with its method and its path, whether it returns or
    raises, and none of them changes [fake_users_db]. *)
Theorem main_endpoints_log_once
    (db : Main.DbConnection.t) (commons : Commons.t) (item_id : Z)
    (validated_item : Main.Item.t) (current_user : Main.CurrentUser.t)
    (logger : Main.Logger) (now : Z) (st : Main.state) :
  let logged st' method path :=
    Main.request_logs st'
    = (Main.request_logs st ++ [log_entry_of logger method path])%list /\
    Main.fake_users_db st' = Main.fake_users_db st in
  logged (Main.health_check db logger now st).2 "GET" "/health" /\
  logged (Main.get_items commons logger st).2 "GET" "/items/" /\
  logged (Main.get_item item_id logger st).2
         "GET" ("/items/" +:+ pretty item_id) /\
  logged (Main.create_item validated_item current_user logger now st).2
         "POST" "/items/" /\
  logged (Main.update_item item_id validated_item current_user logger st).2
         "PUT" ("/items/" +:+ pretty item_id) /\
  logged (Main.delete_item item_id current_user logger st).2
         "DELETE" ("/items/" +:+ pretty item_id).
Proof.
  simpl. split_and!; try done.
  - unfold Main.get_items. simpl. by destruct (take _ _).
  - unfold Main.get_items. simpl. by destruct (take _ _).
  - unfold Main.get_item. simpl.
    destruct (item_id <=? 0); [done|]. by destruct (List.find _ _).
  - unfold Main.get_item. simpl.
    destruct (item_id <=? 0); [done|]. by destruct (List.find _ _).
  - unfold Main.create_item. simpl. by destruct (List.find _ _).
  - unfold Main.create_item. simpl. by destruct (List.find _ _).
  - unfold Main.update_item. simpl.
    destruct (item_id <=? 0); [done|]. by destruct (list_find _ _) as [[]|].
  - unfold Main.update_item. simpl.
    destruct (item_id <=? 0); [done|]. by destruct (list_find _ _) as [[]|].
  - unfold Main.delete_item. simpl.
    destruct (item_id <=? 0); [done|]. by destruct (list_find _ _) as [[]|].
  - unfold Main.delete_item. simpl.
    destruct (item_id <=? 0); [done|]. by destruct (list_find _ _) as [[]|].
Qed.

End MainListing.

(** ** Sample data for the item services *)

From Stdlib Require QArith.

Module ItemSamples.

(** Rational numbers stand for the floats of the samples. *)
Definition rational_float : PyFloat := {|
  float := QArith_base.Q;
  float_of_int := QArith_base.inject_Z;
  float_bool := fun x => negb (QArith_base.Qeq_bool x (QArith_base.inject_Z 0));
  float_add := QArith_base.Qplus;
  float_mul := QArith_base.Qmult;
  float_div := QArith_base.Qdiv;
  float_le := QArith_base.Qle_bool;
  float_lt := fun x y => negb (QArith_base.Qle_bool y x)
|}.

(** [lower()] on the letters A to Z. *)
Definition ascii_lower (c : ascii) : ascii :=
  let n := N_of_ascii c in
  if ((65 <=? n) && (n <=? 90))%N then ascii_of_N (n + 32) else c.

Fixpoint lower (s : string) : string :=
  match s with
  | EmptyString => EmptyString
  | String c s => String (ascii_lower c) (lower s)
  end.

Definition ascii_str : PyStr := {| str_lower := lower |}.

#[local] Existing Instance rational_float.
#[local] Existing Instance ascii_str.

Definition q (n : Z) : float := QArith_base.inject_Z n.

Definition tea : ItemCreate.t := {|
  ItemCreate.name := "Tea";
  ItemCreate.description := None;
  ItemCreate.price := q 3;
  ItemCreate.tax := Some (q 10)
|}.

Definition milk : ItemCreate.t := {|
  ItemCreate.name := "Milk";
  ItemCreate.description := None;
  ItemCreate.price := q 2;
  ItemCreate.tax := None
|}.

Definition row (id : Z) (name : string) (owner_id : Z) : ItemModel.t := {|
  ItemModel.id := id;
  ItemModel.name := name;
  ItemModel.description := None;
  ItemModel.price := q 3;
  ItemModel.tax := None;
  ItemModel.created_at := Some 0;
  ItemModel.updated_at := None;
  ItemModel.owner_id := owner_id
|}.

(** A table in which the users 1 and 2 each own an item "Tea". *)
Definition pantry : list ItemModel.t := [row 1 "Tea" 1; row 2 "Tea" 2].

Definition listed (id : Z) (name : string)
    : Main.ItemResponse.t := {|
  Main.ItemResponse.id := id;
  Main.ItemResponse.name := name;
  Main.ItemResponse.description := None;
  Main.ItemResponse.price := q 3;
  Main.ItemResponse.tax := None;
  Main.ItemResponse.total_price := q 3;
  Main.ItemResponse.created_at := 0
|}.

(** A list of three items with the ids 1, 2, 3. *)
Definition st3 : Main.state := {|
  Main.fake_items_db := [listed 1 "Tea"; listed 2 "Milk"; listed 3 "Rice"];
  Main.fake_users_db := [];
  Main.request_logs := []
|}.

Definition salt_request : Main.Item.t := {|
  Main.Item.name := "Salt";
  Main.Item.description := None;
  Main.Item.price := q 1;
  Main.Item.tax := None
|}.

Definition admin : Main.CurrentUser.t := {|
  Main.CurrentUser.id := 1;
  Main.CurrentUser.name := "Admin";
  Main.CurrentUser.email := "admin@example.com";
  Main.CurrentUser.role := "admin"
|}.

Definition logger0 : Main.Logger := {|
  Main.log_timestamp := 0;
  Main.log_duration_ms := q 0
|}.

End ItemSamples.

(** ** The further properties on the sample data *)

Section FurtherWitnesses.
#[local] Existing Instance Reference.jose.
#[local] Existing Instance Reference.passlib.

Lemma verify_token_sound_witness :
  (<["exp" := JInt 1801]> Demo.claims : gmap string jval) !! "aud" = None.
Proof.
  refine (proj2 (proj2 (proj2 (proj2 (proj2
    (verify_token_sound Demo.alice_token 1600000
       (<["exp" := JInt 1801]> Demo.claims) _)))))).
  vm_compute. reflexivity.
Defined.

Lemma token_without_exp_never_expires_witness :
  verify_token Samples.token_without_exp (timedelta_minutes 1000000)
  = Ret (Some Demo.claims).
Proof.
  apply (token_without_exp_never_expires Samples.token_without_exp 0
           Demo.claims).
  - vm_compute. reflexivity.
  - vm_compute. reflexivity.
  - vm_compute. reflexivity.
Defined.



Lemma get_current_user_sound_witness : Demo.alice ∈ Demo.db.
Proof.
  refine (proj1 (get_current_user_sound Demo.alice_token Demo.db 1600000
                   Demo.alice _)).
  vm_compute. reflexivity.
Defined.

Lemma register_user_duplicate_email_witness :
  register_user Demo.db
    {| UserCreate.name := "Alicia"; UserCreate.email := "a@x.com";
       UserCreate.age := 31; UserCreate.is_active := true;
       UserCreate.password := "secret3" |} "salt-3" 2 0
  = (Raise (HTTPException 409 "Usuario ya existe" []), Demo.db).
Proof.
  apply (register_user_duplicate_email Demo.db _ "salt-3" 2 0 Demo.alice).
  - apply list_elem_of_singleton. reflexivity.
  - reflexivity.
Defined.

Lemma register_user_creates_account_witness :
  exists db_user,
    register_user Demo.db Samples.bob_request "salt-2" 2 0
    = (Ret db_user, (Demo.db ++ [db_user])%list) /\
    UserModel.is_active db_user = true.
Proof.
  destruct (register_user_creates_account Demo.db Samples.bob_request
              "salt-2" 2 0)
    as (db_user & Hr & _ & _ & _ & _ & Hact & _).
  - intros u Hu. apply list_elem_of_singleton in Hu. subst u.
    vm_compute. discriminate.
  - vm_compute. reflexivity.
  - by exists db_user.
Defined.

Lemma register_user_keeps_unique_emails_witness :
  NoDup (UserModel.email <$>
           (register_user Demo.db Samples.bob_request "salt-2" 2 0).2).
Proof.
  refine (proj1 (register_user_keeps_unique_emails Demo.db
                   Samples.bob_request "salt-2" 2 0 _)).
  apply NoDup_singleton.
Defined.

Lemma register_then_authenticate_witness :
  authenticate_user Samples.db2 "b@x.com" "secret2" = Ret (Some Samples.bob).
Proof.
  apply (register_then_authenticate Demo.db Samples.bob_request "salt-2" 2 0
           Samples.bob Samples.db2).
  vm_compute. reflexivity.
Defined.

Lemma register_user_frame_witness :
  authenticate_user
    (register_user Demo.db Samples.bob_request "salt-2" 2 0).2
    "a@x.com" "secret1"
  = authenticate_user Demo.db "a@x.com" "secret1".
Proof.
  refine (proj1 (register_user_frame Demo.db Samples.bob_request "salt-2" 2 0
                   "a@x.com" "secret1" _)).
  vm_compute. discriminate.
Defined.

Lemma authenticate_user_hasher_exception_witness :
  login_user ∅ (SyncSession Demo.db) "a@x.com" Demo.nul_password 1500000
  = (Raise ValueError, ∅) /\
  login_user ∅ (SyncSession Demo.db) "nobody@x.com" Demo.nul_password
    1500000
  = (Raise TypeError, ∅).
Proof.
  destruct (authenticate_user_hasher_exception ∅ Demo.db "a@x.com"
              "nobody@x.com" Demo.nul_password Demo.alice 1500000)
    as (_ & Hk & _ & Hu).
  - vm_compute. reflexivity.
  - intros u Hu. apply list_elem_of_singleton in Hu. subst u.
    vm_compute. discriminate.
  - right. vm_compute. reflexivity.
  - split; [exact Hk|exact Hu].
Defined.

Lemma create_item_keeps_names_unique_witness :
  NoDup (owner_and_name (PF := ItemSamples.rational_float) <$>
           (create_item ItemSamples.pantry ItemSamples.milk Demo.alice 3 0).2)
  /\
  NoDup (owner_and_name (PF := ItemSamples.rational_float) <$>
           (create_item ItemSamples.pantry ItemSamples.tea Demo.alice 3 0).2).
Proof.
  assert (NoDup (owner_and_name (PF := ItemSamples.rational_float) <$>
                   ItemSamples.pantry)) as Hnd.
  { apply (bool_decide_unpack _). vm_compute. reflexivity. }
  split.
  - apply (create_item_keeps_names_unique (PF := ItemSamples.rational_float)
             ItemSamples.pantry ItemSamples.milk Demo.alice 3 0 Hnd).
  - apply (create_item_keeps_names_unique (PF := ItemSamples.rational_float)
             ItemSamples.pantry ItemSamples.tea Demo.alice 3 0 Hnd).
Defined.

Lemma create_item_then_my_stats_witness :
  MyStats.my_items_count
    (get_my_stats (PF := ItemSamples.rational_float)
       (create_item [] ItemSamples.tea Demo.alice 1 0).2 Demo.alice)
  = 1%nat.
Proof.
  exact (proj1 (create_item_then_my_stats
                  (PF := ItemSamples.rational_float)
                  [] ItemSamples.tea Demo.alice 1 0 _ _ eq_refl)).
Defined.

Lemma main_delete_then_create_reuses_id_witness :
  exists st1 st2 item_response other,
    Main.delete_item (PF := ItemSamples.rational_float)
      1 ItemSamples.admin ItemSamples.logger0 ItemSamples.st3
    = (Ret tt, st1) /\
    Main.create_item (PS := ItemSamples.ascii_str)
      ItemSamples.salt_request ItemSamples.admin
      ItemSamples.logger0 0 st1
    = (Ret item_response, st2) /\
    Main.ItemResponse.id item_response = 3 /\
    other ∈ Main.fake_items_db st1 /\
    Main.ItemResponse.id other = Main.ItemResponse.id item_response /\
    ~ NoDup (Main.ItemResponse.id <$> Main.fake_items_db st2).
Proof.
  apply (main_delete_then_create_reuses_id
           (PF := ItemSamples.rational_float) (PS := ItemSamples.ascii_str)
           1 ItemSamples.salt_request ItemSamples.admin
           ItemSamples.logger0 ItemSamples.logger0 0 ItemSamples.st3).
  - reflexivity.
  - simpl. lia.
  - intros existing Hin. simpl in Hin.
    repeat (apply elem_of_cons in Hin as [->|Hin]; [vm_compute; discriminate|]).
    by apply elem_of_nil in Hin.
Defined.

Lemma get_users_pages_compose_witness :
  get_users (fun _ _ => true) (common_parameters 0 2 None) Samples.db2
            Demo.alice
  = Ret [Demo.alice; Samples.bob].
Proof.
  apply (get_users_pages_compose (fun _ _ => true) 0 1 1 None Samples.db2
           Demo.alice [Demo.alice]).
  reflexivity.
Defined.

End FurtherWitnesses.
